(** * Juno: transaction hashing, hash verification, transaction commitment
      and the JSON-RPC 2.0 dispatcher

    A shallow embedding of [core/transaction.go] and [jsonrpc/server.go],
    followed by the properties established about them. *)

From stdpp Require Import base gmap strings list.
From Stdlib Require Import ZArith Lia.

Local Open Scope Z_scope.

(** Go functions that return [(value, error)]: exactly one side is set. *)
Inductive result (E A : Type) : Type :=
| Ok (a : A)
| Err (e : E).
Arguments Ok {E A} a.
Arguments Err {E A} e.

(* ================================================================== *)
(** ** Package [core] *)
(* ================================================================== *)
Module Core.

(** *** Field elements ([core/felt], outside the files embedded here) *)

(** Modelled from the spec: the package [felt] is missing; a field element
    is a residue modulo the StarkNet prime [p = 2^251 + 17 * 2^192 + 1],
    kept in canonical form [0 <= x < p]. *)
Definition P : Z := 2 ^ 251 + 17 * 2 ^ 192 + 1.

Definition felt : Type := Z.

(** Modelled from the spec: [new(felt.Felt)] and [felt.Zero] are the zero
    element. *)
Definition Zero : felt := 0.

(** Modelled from the spec: [isZero], [isOne] and [equals] are total
    predicates on canonical residues. *)
Definition IsZero (x : felt) : bool := x =? 0.
Definition IsOne (x : felt) : bool := x =? 1.
Definition Equal (x y : felt) : bool := x =? y.

(** Modelled from the spec: [fromBytes] reads the bytes big-endian and
    reduces modulo [p]. *)
Definition SetBytes (s : string) : felt :=
  fold_left (fun acc c => acc * 256 + Z.of_N (Ascii.N_of_ascii c))
            (String.list_ascii_of_string s) 0 mod P.

(** Go's conversion [uint64(i)] of a slice index. *)
Definition uint64 (i : nat) : Z := Z.of_nat i mod 2 ^ 64.

(** Modelled from the spec: [fromUint64]. *)
Definition SetUint64 (v : Z) : felt := v mod P.

(** *** Networks ([utils.Network], outside the files embedded here) *)

Inductive Network : Type := MAINNET | GOERLI | GOERLI2 | INTEGRATION.

(** Modelled from the spec: the chain identifier is the field-element
    encoding of the ASCII strings [SN_MAIN], [SN_GOERLI], [SN_GOERLI2] and
    [SN_INTEGRATION]. *)
Definition ChainID (n : Network) : felt :=
  match n with
  | MAINNET => SetBytes "SN_MAIN"
  | GOERLI => SetBytes "SN_GOERLI"
  | GOERLI2 => SetBytes "SN_GOERLI2"
  | INTEGRATION => SetBytes "SN_INTEGRATION"
  end.

(** *** The transaction model *)

Record DeployTransaction : Type := {
  dep_TransactionHash : felt;
  dep_ContractAddressSalt : felt;
  dep_ContractAddress : felt;
  dep_ClassHash : felt;
  dep_ConstructorCallData : list felt;
  dep_Version : felt
}.

(** [DeployAccountTransaction] embeds a [DeployTransaction]. *)
Record DeployAccountTransaction : Type := {
  da_DeployTransaction : DeployTransaction;
  da_MaxFee : felt;
  da_TransactionSignature : list felt;
  da_Nonce : felt
}.

Record InvokeTransaction : Type := {
  inv_TransactionHash : felt;
  inv_CallData : list felt;
  inv_TransactionSignature : list felt;
  inv_MaxFee : felt;
  inv_ContractAddress : felt;
  inv_Version : felt;
  inv_EntryPointSelector : felt;
  inv_Nonce : felt;
  inv_SenderAddress : felt
}.

Record DeclareTransaction : Type := {
  decl_TransactionHash : felt;
  decl_ClassHash : felt;
  decl_SenderAddress : felt;
  decl_MaxFee : felt;
  decl_TransactionSignature : list felt;
  decl_Nonce : felt;
  decl_Version : felt;
  decl_CompiledClassHash : felt
}.

(** The nonce of an L1 handler is the one pointer the code tests against
    [nil]; it is an [option]. *)
Record L1HandlerTransaction : Type := {
  l1_TransactionHash : felt;
  l1_ContractAddress : felt;
  l1_EntryPointSelector : felt;
  l1_Nonce : option felt;
  l1_CallData : list felt;
  l1_Version : felt
}.

(** The [Transaction] interface with its five implementations. *)
Inductive Transaction : Type :=
| TxDeclare (d : DeclareTransaction)
| TxInvoke (i : InvokeTransaction)
| TxDeploy (d : DeployTransaction)
| TxL1Handler (l : L1HandlerTransaction)
| TxDeployAccount (d : DeployAccountTransaction).

Definition Hash (t : Transaction) : felt :=
  match t with
  | TxDeclare d => decl_TransactionHash d
  | TxInvoke i => inv_TransactionHash i
  | TxDeploy d => dep_TransactionHash d
  | TxL1Handler l => l1_TransactionHash l
  | TxDeployAccount d => dep_TransactionHash (da_DeployTransaction d)
  end.

Definition Signature (t : Transaction) : list felt :=
  match t with
  | TxDeclare d => decl_TransactionSignature d
  | TxInvoke i => inv_TransactionSignature i
  | TxDeploy _ => []
  | TxL1Handler _ => []
  | TxDeployAccount d => da_TransactionSignature d
  end.

(** The error of [errInvalidTransactionVersion]: the transaction (for its
    type) and the offending version. *)
Inductive hashError : Type :=
| InvalidTransactionVersion (t : Transaction) (version : felt).

Definition errInvalidTransactionVersion (t : Transaction) (version : felt)
  : hashError := InvalidTransactionVersion t version.

Definition invokeFelt : felt := SetBytes "invoke".
Definition declareFelt : felt := SetBytes "declare".
Definition l1HandlerFelt : felt := SetBytes "l1_handler".
Definition deployAccountFelt : felt := SetBytes "deploy_account".

Section Hashing.

(** The two-input Pedersen hash of [core/crypto], over the STARK curve. *)
Variable Pedersen : felt -> felt -> felt.

(** Modelled from the spec: [crypto.PedersenArray] is missing; it is the
    left fold [acc <- pedersen(acc, x_i)] from [acc = 0], closed by
    [pedersen(acc, n)] with [n] the element count. *)
Definition PedersenArray (xs : list felt) : felt :=
  Pedersen (fold_left Pedersen xs 0) (Z.of_nat (List.length xs)).

Definition invokeTransactionHash (i : InvokeTransaction) (n : Network)
  : result hashError felt :=
  if IsZero (inv_Version i) then Ok (inv_TransactionHash i)
  else if IsOne (inv_Version i) then
    Ok (PedersenArray [invokeFelt; inv_Version i; inv_SenderAddress i; Zero;
                       PedersenArray (inv_CallData i); inv_MaxFee i;
                       ChainID n; inv_Nonce i])
  else Err (errInvalidTransactionVersion (TxInvoke i) (inv_Version i)).

Definition declareTransactionHash (d : DeclareTransaction) (n : Network)
  : result hashError felt :=
  if IsZero (decl_Version d) then Ok (decl_TransactionHash d)
  else if IsOne (decl_Version d) then
    Ok (PedersenArray [declareFelt; decl_Version d; decl_SenderAddress d;
                       Zero; PedersenArray [decl_ClassHash d]; decl_MaxFee d;
                       ChainID n; decl_Nonce d])
  else if Equal (decl_Version d) (SetUint64 2) then
    Ok (PedersenArray [declareFelt; decl_Version d; decl_SenderAddress d;
                       Zero; PedersenArray [decl_ClassHash d]; decl_MaxFee d;
                       ChainID n; decl_Nonce d; decl_CompiledClassHash d])
  else Err (errInvalidTransactionVersion (TxDeclare d) (decl_Version d)).

Definition l1HandlerTransactionHash (l : L1HandlerTransaction) (n : Network)
  : result hashError felt :=
  if IsZero (l1_Version l) then
    match l1_Nonce l with
    | None => Ok (l1_TransactionHash l)
    | Some nonce =>
        Ok (PedersenArray [l1HandlerFelt; l1_Version l; l1_ContractAddress l;
                           l1_EntryPointSelector l;
                           PedersenArray (l1_CallData l); Zero; ChainID n;
                           nonce])
    end
  else Err (errInvalidTransactionVersion (TxL1Handler l) (l1_Version l)).

Definition deployAccountTransactionHash (d : DeployAccountTransaction)
  (n : Network) : result hashError felt :=
  let dt := da_DeployTransaction d in
  let callData :=
    [dep_ClassHash dt; dep_ContractAddressSalt dt]
      ++ dep_ConstructorCallData dt in
  if IsOne (dep_Version dt) then
    Ok (PedersenArray [deployAccountFelt; dep_Version dt;
                       dep_ContractAddress dt; Zero; PedersenArray callData;
                       da_MaxFee d; ChainID n; da_Nonce d])
  else Err (errInvalidTransactionVersion (TxDeployAccount d) (dep_Version dt)).

(** The type switch of [transactionHash]; its [default] arm is unreachable
    for the five implementations of the interface. *)
Definition transactionHash (t : Transaction) (n : Network)
  : result hashError felt :=
  match t with
  | TxDeclare d => declareTransactionHash d n
  | TxInvoke i => invokeTransactionHash i n
  | TxDeploy d => Ok (dep_TransactionHash d)
  | TxL1Handler l => l1HandlerTransactionHash l n
  | TxDeployAccount d => deployAccountTransactionHash d n
  end.

(** *** Hash verification *)

(** One node of the diagnostic chain; [next] is the pointer to the rest. *)
#[local] Unset Elimination Schemes.
Inductive CantVerifyTransactionHashError : Type :=
  mkCantVerify {
    cv_t : Transaction;
    cv_hashFailure : option hashError;
    cv_next : option CantVerifyTransactionHashError
  }.
#[local] Set Elimination Schemes.

Definition Unwrap (e : CantVerifyTransactionHashError)
  : option CantVerifyTransactionHashError := cv_next e.

Definition verifyTransactionHash (t : Transaction) (n : Network)
  : option CantVerifyTransactionHashError :=
  match transactionHash t n with
  | Err err => Some (mkCantVerify t (Some err) None)
  | Ok calculatedTxHash =>
      if negb (Equal calculatedTxHash (Hash t))
      then Some (mkCantVerify t None None)
      else None
  end.

(** One iteration of the loop of [verifyTransactions]: a failure is linked
    in front of the current head. *)
Definition verifyStep (n : Network)
  (head : option CantVerifyTransactionHashError) (tx : Transaction)
  : option CantVerifyTransactionHashError :=
  match verifyTransactionHash tx n with
  | Some err => Some (mkCantVerify (cv_t err) (cv_hashFailure err) head)
  | None => head
  end.

Definition verifyTransactions (txs : list Transaction) (n : Network)
  : option CantVerifyTransactionHashError :=
  fold_left (verifyStep n) txs None.

(** *** Transaction commitment *)

Definition commitmentTrieHeight : nat := 64.

(** The operations of [core/trie] that the commitment uses.  The package is
    outside the files embedded here, so the trie is an interface: [Put]
    (whose returned previous value the caller drops) and [Root] may each
    fail with the package's error. *)
Class TrieOps (T E : Type) : Type := {
  NewTrie : nat -> T;
  Put : T -> felt -> felt -> result E T;
  Root : T -> result E felt
}.

(** Modelled from the spec: [trie.RunOnTempTrie] is missing; it provides a
    scoped empty trie of the given height to its body and returns what the
    body returns. *)
Definition RunOnTempTrie {T E A} `{TrieOps T E} (height : nat)
  (do : T -> A) : A := do (NewTrie height).

(** The type assertion of [transaction] to a pointer to
    [InvokeTransaction]. *)
Definition isInvokeTransaction (t : Transaction) : bool :=
  match t with
  | TxInvoke _ => true
  | _ => false
  end.

Section Commitment.
Context {T E : Type} `{TrieOps T E}.

(** The [for i, transaction := range transactions] loop, from index [i]. *)
Fixpoint commitmentLoop (i : nat) (transactions : list Transaction)
  (trie : T) : result E T :=
  match transactions with
  | [] => Ok trie
  | transaction :: rest =>
      let signatureHash := PedersenArray [] in
      let signatureHash :=
        if isInvokeTransaction transaction
        then PedersenArray (Signature transaction)
        else signatureHash in
      match Put trie (SetUint64 (uint64 i))
                (Pedersen (Hash transaction) signatureHash) with
      | Err err => Err err
      | Ok trie' => commitmentLoop (S i) rest trie'
      end
  end.

(** The closure handed to [RunOnTempTrie]: the value it leaves in the
    captured variable [commitment] and the error it returns. *)
Definition commitmentBody (transactions : list Transaction) (trie : T)
  : option felt * option E :=
  match commitmentLoop 0 transactions trie with
  | Err err => (None, Some err)
  | Ok trie' =>
      match Root trie' with
      | Err err => (None, Some err)
      | Ok root => (Some root, None)
      end
  end.

(** [return commitment, trie.RunOnTempTrie(...)]: the variable is read
    after the call has run, as the Go compiler orders it. *)
Definition transactionCommitment (transactions : list Transaction)
  : option felt * option E :=
  RunOnTempTrie commitmentTrieHeight (commitmentBody transactions).

End Commitment.

End Hashing.

(** A trie that only records the insertions it receives, in order; it is
    used to observe the sequence of [Put] calls. *)
Definition recordingTrie : Type := list (felt * felt).

#[export] Instance recordingTrieOps : TrieOps recordingTrie unit := {
  NewTrie := fun _ => [];
  Put := fun t k v => Ok (t ++ [(k, v)]);
  Root := fun t => Ok (Z.of_nat (List.length t))
}.

(** The nodes of a diagnostic chain in the order in which repeated
    [Unwrap] visits them, the head first. *)
Fixpoint chain (e : CantVerifyTransactionHashError)
  : list (Transaction * option hashError) :=
  match e with
  | mkCantVerify t f None => [(t, f)]
  | mkCantVerify t f (Some e') => (t, f) :: chain e'
  end.

Definition chainOf (e : option CantVerifyTransactionHashError)
  : list (Transaction * option hashError) :=
  match e with
  | None => []
  | Some e => chain e
  end.

End Core.

(* ================================================================== *)
(** ** Package [jsonrpc] *)
(* ================================================================== *)
Module Jsonrpc.

(** *** JSON documents and Go values of type [any]

    A document decoded by [encoding/json] with [UseNumber] into a value of
    type [any] is [nil], a [bool], a [json.Number], a [string], a [[]any] or
    a [map[string]any]; the same tree stands for both.  An object keeps its
    members in document order; a later member with the same name replaces an
    earlier one, as it does in the decoded Go map. *)
#[local] Unset Elimination Schemes.
Inductive json : Type :=
| JNull
| JBool (b : bool)
| JNumber (n : string)
| JString (s : string)
| JArray (l : list json)
| JObject (m : list (string * json)).
#[local] Set Elimination Schemes.

(** A Go value of type [any] that the server is to encode: one that
    [json.Marshal] encodes, written as its document ([nil] as [JNull]), or
    one that it refuses, such as a channel, a function or a value whose
    own encoder fails, with the text of the error. *)
Inductive any : Type :=
| Value (j : json)
| Unencodable (msg : string).

Coercion Value : json >-> any.

(** [paramsMap[name]] on the map decoded from an object. *)
Fixpoint mapLookup (name : string) (m : list (string * json)) : option json :=
  match m with
  | [] => None
  | (k, v) :: rest =>
      match mapLookup name rest with
      | Some v' => Some v'
      | None => if String.eqb k name then Some v else None
      end
  end.

(** [strings.Contains]. *)
Fixpoint Contains (s substr : string) : bool :=
  if String.prefix substr s then true
  else match s with
       | EmptyString => false
       | String _ s' => Contains s' substr
       end.

(** *** Calls that may panic *)

Inductive outcome (A : Type) : Type :=
| Returns (a : A)
| Panics.
Arguments Returns {A} a.
Arguments Panics {A}.

#[export] Instance outcome_ret : MRet outcome := fun _ a => Returns a.
#[export] Instance outcome_bind : MBind outcome := fun _ _ f m =>
  match m with
  | Returns a => f a
  | Panics => Panics
  end.

(** *** Error codes and envelopes *)

Definition InvalidJSON : Z := -32700.
Definition InvalidRequest : Z := -32600.
Definition MethodNotFound : Z := -32601.
Definition InvalidParams : Z := -32602.
Definition InternalError : Z := -32603.

(** Go [error] values met by the dispatcher: the package variable
    [ErrInvalidID], which [errors.Is] recognises by identity, the values
    made on the spot by [errors.New], and the errors of [encoding/json]. *)
Inductive goError : Type :=
| ErrInvalidID
| errorsNew (msg : string)
| jsonError (msg : string).

Definition errorText (e : goError) : string :=
  match e with
  | ErrInvalidID => "id should be a string or an integer"
  | errorsNew msg => msg
  | jsonError msg => msg
  end.

(** [errors.Is(e, ErrInvalidID)]. *)
Definition isErrInvalidID (e : goError) : bool :=
  match e with
  | ErrInvalidID => true
  | _ => false
  end.

Record request : Type := {
  req_Version : string;
  req_Method : string;
  req_Params : json;
  req_ID : json
}.

Record Error : Type := {
  err_Code : Z;
  err_Message : string;
  err_Data : any
}.

Record response : Type := {
  res_Version : string;
  res_Result : any;
  res_Error : option Error;
  res_ID : json
}.

Definition rpcErr (code : Z) (data : any) : Error :=
  if code =? InvalidJSON then
    {| err_Code := InvalidJSON; err_Message := "Parse error";
       err_Data := data |}
  else if code =? InvalidRequest then
    {| err_Code := InvalidRequest; err_Message := "Invalid Request";
       err_Data := data |}
  else if code =? MethodNotFound then
    {| err_Code := MethodNotFound; err_Message := "Method Not Found";
       err_Data := data |}
  else if code =? InvalidParams then
    {| err_Code := InvalidParams; err_Message := "Invalid Params";
       err_Data := data |}
  else
    {| err_Code := InternalError; err_Message := "Internal Error";
       err_Data := data |}.

Definition isSane (r : request) : option goError :=
  if negb (String.eqb (req_Version r) "2.0") then
    Some (errorsNew "unsupported RPC request version")
  else if String.eqb (req_Method r) "" then
    Some (errorsNew "no method specified")
  else
    let paramsBad :=
      match req_Params r with
      | JNull => false
      | JArray _ | JObject _ => false
      | _ => true
      end in
    if paramsBad then Some (errorsNew "params should be an array or an object")
    else
      match req_ID r with
      | JNull => None
      | JNumber n => if Contains n "." then Some ErrInvalidID else None
      | JString _ => None
      | _ => Some ErrInvalidID
      end.

(** *** Handlers and the registry *)

(** A Go type as the binder uses it: [json.Unmarshal] of a document into a
    fresh value of the type (the error text is the library's), and the zero
    value [reflect.New(t).Elem()].  Values handed to handlers are written
    as the documents they were decoded from. *)
Record GoType : Type := {
  ty_Unmarshal : json -> result string json;
  ty_Zero : json
}.

(** A Go function value as [reflect] sees it: its parameter types;
    whether it is variadic, its last parameter then being a slice [[]T]
    written [...T]; for a variadic function, whether a value of that slice
    type is assignable to its element type [T], as it is for [...any]; its
    number of results; whether its second result has type [*Error]; and the
    call itself for a function that returns [(any, *Error)].  The call may
    panic, as the body of a handler may and as the call of a nil function
    value does. *)
Record Func : Type := {
  fn_In : list GoType;
  fn_IsVariadic : bool;
  fn_SliceAsElem : bool;
  fn_NumOut : nat;
  fn_Out1IsError : bool;
  fn_call : list json -> outcome (any * option Error)
}.

(** The [Handler any] field of a method. *)
Inductive handlerAny : Type :=
| NotAFunc
| HFunc (f : Func).

Record MethodParameter : Type := {
  par_Name : string;
  par_Optional : bool
}.

Record Method : Type := {
  m_Name : string;
  m_Params : list MethodParameter;
  m_Handler : handlerAny
}.

Record Server : Type := {
  methods : gmap string Method
}.

Definition NewServer : Server := {| methods := ∅ |}.

Definition RegisterMethod (s : Server) (method : Method)
  : result goError Server :=
  match m_Handler method with
  | NotAFunc => Err (errorsNew "handler must be a function")
  | HFunc handlerT =>
      if negb (List.length (fn_In handlerT)
               =? List.length (m_Params method))%nat then
        Err (errorsNew "number of function params and param names must match")
      else if negb (fn_NumOut handlerT =? 2)%nat then
        Err (errorsNew "handler must return 2 values")
      else if negb (fn_Out1IsError handlerT) then
        Err (errorsNew "second return value must be a *jsonrpc.Error")
      else
        Ok {| methods := <[m_Name method := method]> (methods s) |}
  end.

(** [isNil]: [reflect.Value.IsNil] panics on a value that is neither a
    pointer, a slice, a map nor an interface. *)
Definition isNil (i : json) : outcome bool :=
  match i with
  | JNull => Returns true
  | JArray _ | JObject _ => Returns false
  | _ => Panics
  end.

(** [reflect.TypeOf(handler).NumIn()] and [.In(i)]; both panic on a value
    that is not a function, the second also out of range. *)
Definition NumIn (handler : handlerAny) : outcome nat :=
  match handler with
  | NotAFunc => Panics
  | HFunc f => Returns (List.length (fn_In f))
  end.

Definition In_ (handler : handlerAny) (i : nat) : outcome GoType :=
  match handler with
  | NotAFunc => Panics
  | HFunc f =>
      match fn_In f !! i with
      | Some t => Returns t
      | None => Panics
      end
  end.

(** The check of the arguments in [reflect.Value.Call].  A function with
    [n] parameters that is not variadic takes exactly [n] arguments.  A
    variadic one takes at least [n - 1]; each further argument must be
    assignable to the element type of its last parameter.  The arguments
    are those that [buildArguments] builds: the one at index [i] has the
    type [In(i)], so that an argument at index [n - 1] has the slice type
    of the last parameter, and there is none at a higher index, since
    [In(i)] panics there. *)
Definition argsFit (f : Func) (args : list json) : bool :=
  let n := List.length (fn_In f) in
  if fn_IsVariadic f then
    ((n - 1 <=? List.length args)
     && ((List.length args <=? n - 1)
         || ((List.length args =? n) && fn_SliceAsElem f)))%nat
  else (List.length args =? n)%nat.

(** [reflect.ValueOf(handler).Call(args)]: panics on a value that is not
    a function and on arguments that do not fit; otherwise the function
    runs. *)
Definition Call (handler : handlerAny) (args : list json)
  : outcome (any * option Error) :=
  match handler with
  | NotAFunc => Panics
  | HFunc f => if argsFit f args then fn_call f args else Panics
  end.

(** The closure [handlerParamValue]: the parameter is marshalled again and
    unmarshalled into a fresh value of type [t]. *)
Definition handlerParamValue (param : json) (t : GoType)
  : result goError json :=
  match ty_Unmarshal t param with
  | Ok v => Ok v
  | Err msg => Err (jsonError msg)
  end.

(** The loop over [paramsList], from index [i], appending to [args]. *)
Fixpoint bindList (handler : handlerAny) (i : nat) (paramsList : list json)
  (args : list json) : outcome (result goError (list json)) :=
  match paramsList with
  | [] => Returns (Ok args)
  | param :: rest =>
      t ← In_ handler i;
      match handlerParamValue param t with
      | Err err => Returns (Err err)
      | Ok v => bindList handler (S i) rest (args ++ [v])
      end
  end.

(** The loop over [configuredParams], from index [i]. *)
Fixpoint bindMap (handler : handlerAny) (paramsMap : list (string * json))
  (i : nat) (configuredParams : list MethodParameter) (args : list json)
  : outcome (result goError (list json)) :=
  match configuredParams with
  | [] => Returns (Ok args)
  | configuredParam :: rest =>
      match mapLookup (par_Name configuredParam) paramsMap with
      | Some param =>
          t ← In_ handler i;
          match handlerParamValue param t with
          | Err err => Returns (Err err)
          | Ok v => bindMap handler paramsMap (S i) rest (args ++ [v])
          end
      | None =>
          if par_Optional configuredParam then
            t ← In_ handler i;
            bindMap handler paramsMap (S i) rest (args ++ [ty_Zero t])
          else Returns (Err (errorsNew "missing non-optional param"))
      end
  end.

Definition buildArguments (params : json) (handler : handlerAny)
  (configuredParams : list MethodParameter)
  : outcome (result goError (list json)) :=
  nil ← isNil params;
  if (nil : bool) then Returns (Ok [])
  else
    match params with
    | JArray paramsList =>
        numIn ← NumIn handler;
        if negb (List.length paramsList =? numIn)%nat then
          Returns (Err (errorsNew "missing/unexpected params in list"))
        else bindList handler 0 paramsList []
    | JObject paramsMap => bindMap handler paramsMap 0 configuredParams []
    | _ =>
        Returns (Err (errorsNew "impossible param type: check request.isSane"))
    end.

(** [handleRequest] returns [(nil, err)], [(res, nil)] or [(nil, nil)]. *)
Definition handleRequest (s : Server) (req : request)
  : outcome (result goError (option response)) :=
  match isSane req with
  | Some err => Returns (Err err)
  | None =>
      let res := {| res_Version := "2.0"; res_Result := JNull;
                    res_Error := None; res_ID := req_ID req |} in
      match methods s !! req_Method req with
      | None =>
          Returns (Ok (Some
            {| res_Version := res_Version res; res_Result := res_Result res;
               res_Error := Some (rpcErr MethodNotFound JNull);
               res_ID := res_ID res |}))
      | Some calledMethod =>
          built ← buildArguments (req_Params req) (m_Handler calledMethod)
                                 (m_Params calledMethod);
          match built with
          | Err err =>
              Returns (Ok (Some
                {| res_Version := res_Version res;
                   res_Result := res_Result res;
                   res_Error :=
                     Some (rpcErr InvalidParams (JString (errorText err)));
                   res_ID := res_ID res |}))
          | Ok args =>
              tuple ← Call (m_Handler calledMethod) args;
              match res_ID res with
              | JNull => Returns (Ok None)
              | _ =>
                  match snd tuple with
                  | Some errAny =>
                      Returns (Ok (Some
                        {| res_Version := res_Version res;
                           res_Result := res_Result res;
                           res_Error := Some errAny;
                           res_ID := res_ID res |}))
                  | None =>
                      Returns (Ok (Some
                        {| res_Version := res_Version res;
                           res_Result := fst tuple;
                           res_Error := res_Error res;
                           res_ID := res_ID res |}))
                  end
              end
          end
      end
  end.

(** *** Decoding a request

    [json.Decoder.Decode] into a [request]: [null] leaves the struct at its
    zero value; an object sets each member whose name matches a field's tag,
    the match ignoring letter case as [encoding/json] folds it: besides the
    ASCII letters, the long s (U+017F, the bytes 197 191) folds to [s] and
    the Kelvin sign (U+212A, the bytes 226 132 170) to [k]; a
    string field given anything but a string or [null] records a type error,
    which is returned once the object has been read; any other document is a
    type error. *)
Definition lowerAscii (c : Ascii.ascii) : Ascii.ascii :=
  let n := Ascii.nat_of_ascii c in
  if ((65 <=? n) && (n <=? 90))%nat then Ascii.ascii_of_nat (n + 32) else c.

Definition isByte (c : Ascii.ascii) (n : nat) : bool :=
  (Ascii.nat_of_ascii c =? n)%nat.

Fixpoint lower (s : string) : string :=
  match s with
  | EmptyString => EmptyString
  | String c s' =>
      match s' with
      | EmptyString => String (lowerAscii c) EmptyString
      | String c1 s1 =>
          if isByte c 197 && isByte c1 191 then
            String (Ascii.ascii_of_nat 115) (lower s1)
          else
            match s1 with
            | EmptyString => String (lowerAscii c) (lower s')
            | String c2 s2 =>
                if isByte c 226 && isByte c1 132 && isByte c2 170 then
                  String (Ascii.ascii_of_nat 107) (lower s2)
                else String (lowerAscii c) (lower s')
            end
      end
  end.

Definition fieldMatches (tag key : string) : bool :=
  String.eqb (lower key) tag.

Definition jsonKind (v : json) : string :=
  match v with
  | JNull => "null"
  | JBool _ => "bool"
  | JNumber _ => "number"
  | JString _ => "string"
  | JArray _ => "array"
  | JObject _ => "object"
  end.

Definition fieldTypeError (v : json) (tag : string) : goError :=
  jsonError (String.append "json: cannot unmarshal "
            (String.append (jsonKind v)
            (String.append " into Go struct field request."
            (String.append tag " of type string")))).

Definition valueTypeError (v : json) (ty : string) : goError :=
  jsonError (String.append "json: cannot unmarshal "
            (String.append (jsonKind v)
            (String.append " into Go value of type " ty))).

(** The decoder keeps the first error it meets. *)
Definition saveError (saved : option goError) (err : goError)
  : option goError :=
  match saved with
  | Some e => Some e
  | None => Some err
  end.

Definition zeroRequest : request :=
  {| req_Version := ""; req_Method := ""; req_Params := JNull;
     req_ID := JNull |}.

Definition decodeMember (st : request * option goError) (kv : string * json)
  : request * option goError :=
  let req := fst st in
  let saved := snd st in
  let k := fst kv in
  let v := snd kv in
  if fieldMatches "jsonrpc" k then
    match v with
    | JString s =>
        ({| req_Version := s; req_Method := req_Method req;
            req_Params := req_Params req; req_ID := req_ID req |}, saved)
    | JNull => st
    | _ => (req, saveError saved (fieldTypeError v "jsonrpc"))
    end
  else if fieldMatches "method" k then
    match v with
    | JString s =>
        ({| req_Version := req_Version req; req_Method := s;
            req_Params := req_Params req; req_ID := req_ID req |}, saved)
    | JNull => st
    | _ => (req, saveError saved (fieldTypeError v "method"))
    end
  else if fieldMatches "params" k then
    ({| req_Version := req_Version req; req_Method := req_Method req;
        req_Params := v; req_ID := req_ID req |}, saved)
  else if fieldMatches "id" k then
    ({| req_Version := req_Version req; req_Method := req_Method req;
        req_Params := req_Params req; req_ID := v |}, saved)
  else st.

Definition decodeRequest (d : json) : result goError request :=
  match d with
  | JNull => Ok zeroRequest
  | JObject m =>
      let st := fold_left decodeMember m (zeroRequest, None) in
      match snd st with
      | Some err => Err err
      | None => Ok (fst st)
      end
  | _ => Err (valueTypeError d "jsonrpc.request")
  end.

(** *** Serving a payload

    What the reader delivers is either a text that is not JSON (with
    whether its first byte after white space is an opening bracket, and
    the decoder's message) or a JSON document. *)
Inductive payload : Type :=
| Malformed (bracket : bool) (msg : string)
| Document (d : json).

(** [isBatch] peeks the first byte that is not a space, tab, or line
    break; a JSON document starts with an opening bracket exactly when it
    is an array. *)
Definition isBatch (p : payload) : bool :=
  match p with
  | Malformed bracket _ => bracket
  | Document (JArray _) => true
  | Document _ => false
  end.

(** [dec.Decode(req)] on the payload. *)
Definition decodeSingle (p : payload) : result goError request :=
  match p with
  | Malformed _ msg => Err (jsonError msg)
  | Document d => decodeRequest d
  end.

(** [dec.Decode(&batchReq)] on the payload. *)
Definition decodeBatch (p : payload) : result goError (list json) :=
  match p with
  | Malformed _ msg => Err (jsonError msg)
  | Document (JArray l) => Ok l
  | Document JNull => Ok []
  | Document d => Err (valueTypeError d "[]json.RawMessage")
  end.

(** The error of [json.Marshal] on a response object, if there is one:
    the result is encoded before the error object, and the version, the
    code, the message and the id always encode. *)
Definition marshalAny (v : any) : option goError :=
  match v with
  | Value _ => None
  | Unencodable msg => Some (jsonError msg)
  end.

Definition Marshal (r : response) : option goError :=
  match marshalAny (res_Result r) with
  | Some jsonErr => Some jsonErr
  | None =>
      match res_Error r with
      | Some e => marshalAny (err_Data e)
      | None => None
      end
  end.

(** What [HandleReader] returns: no bytes and no error; the bytes that
    [json.Marshal] made of one response object, or of an array of them,
    written as what was encoded; or no bytes and the error of
    [json.Marshal]. *)
Inductive output : Type :=
| NoBytes
| Single (res : response)
| Batch (batchRes : list response)
| Failed (err : goError).

(** [return json.Marshal(res)]. *)
Definition marshalled (res : response) : output :=
  match Marshal res with
  | Some jsonErr => Failed jsonErr
  | None => Single res
  end.

Definition errorResponse (id : json) (e : Error) : response :=
  {| res_Version := "2.0"; res_Result := JNull; res_Error := Some e;
     res_ID := id |}.

(** The body of the loop over [batchReq] up to the encoding: the response
    object of one element, [None] for [nil]. *)
Definition handleElement (s : Server) (rawReq : json)
  : outcome (option response) :=
  match decodeRequest rawReq with
  | Err jsonErr =>
      Returns (Some (errorResponse JNull
                       (rpcErr InvalidRequest (JString (errorText jsonErr)))))
  | Ok req =>
      handled ← handleRequest s req;
      match handled with
      | Err handleErr =>
          Returns (Some (errorResponse
            (if negb (isErrInvalidID handleErr) then req_ID req else JNull)
            (rpcErr InvalidRequest (JString (errorText handleErr)))))
      | Ok resObject => Returns resObject
      end
  end.

(** The loop over [batchReq]: a response object that does not encode ends
    the loop, and the whole call, with the error. *)
Fixpoint handleBatch (s : Server) (batchReq : list json)
  (batchRes : list response) : outcome (result goError (list response)) :=
  match batchReq with
  | [] => Returns (Ok batchRes)
  | rawReq :: rest =>
      resObject ← handleElement s rawReq;
      match resObject with
      | Some r =>
          match Marshal r with
          | Some jsonErr => Returns (Err jsonErr)
          | None => handleBatch s rest (batchRes ++ [r])
          end
      | None => handleBatch s rest batchRes
      end
  end.

Definition HandleReader (s : Server) (reader : payload) : outcome output :=
  let requestIsBatch := isBatch reader in
  if negb requestIsBatch then
    match decodeSingle reader with
    | Err jsonErr =>
        Returns (marshalled (errorResponse JNull
                   (rpcErr InvalidJSON (JString (errorText jsonErr)))))
    | Ok req =>
        handled ← handleRequest s req;
        match handled with
        | Err handleErr =>
            Returns (marshalled (errorResponse
              (if negb (isErrInvalidID handleErr) then req_ID req else JNull)
              (rpcErr InvalidRequest (JString (errorText handleErr)))))
        | Ok None => Returns NoBytes
        | Ok (Some resObject) => Returns (marshalled resObject)
        end
    end
  else
    match decodeBatch reader with
    | Err batchJSONErr =>
        Returns (marshalled (errorResponse JNull
                   (rpcErr InvalidJSON (JString (errorText batchJSONErr)))))
    | Ok [] =>
        Returns (marshalled (errorResponse JNull
                   (rpcErr InvalidRequest (JString "empty batch"))))
    | Ok batchReq =>
        batched ← handleBatch s batchReq [];
        match batched with
        | Err jsonErr => Returns (Failed jsonErr)
        | Ok [] => Returns NoBytes
        | Ok batchRes => Returns (Batch batchRes)
        end
    end.

(** [Handle] wraps the bytes in a reader. *)
Definition Handle (s : Server) (data : payload) : outcome output :=
  HandleReader s data.

(** The servers that [NewServer] and successful calls of [RegisterMethod]
    produce. *)
Inductive registered : Server -> Prop :=
| registered_new : registered NewServer
| registered_method (s s' : Server) (method : Method) :
    registered s -> RegisterMethod s method = Ok s' -> registered s'.

(** The code of the error a response carries, if it carries one. *)
Definition errorCode (r : response) : option Z :=
  match res_Error r with
  | Some e => Some (err_Code e)
  | None => None
  end.

(** What a single request returns for the response object that
    [handleElement] yields in a batch. *)
Definition asSingle (resObject : option response) : output :=
  match resObject with
  | Some r => marshalled r
  | None => NoBytes
  end.

End Jsonrpc.

(* ================================================================== *)
(** ** Definitions used to state the properties *)
(* ================================================================== *)

Import Core.

(** A transaction mismatches when hashing it fails or the recomputed hash
    differs from the declared one. *)
Definition mismatches (Pedersen : felt -> felt -> felt) (n : Network)
  (tx : Transaction) : bool :=
  match transactionHash Pedersen tx n with
  | Err _ => true
  | Ok h => negb (Equal h (Hash tx))
  end.

(** What [verifyTransactionHash] reports for one transaction, as the entry
    it contributes to the chain. *)
Definition failureOf (Pedersen : felt -> felt -> felt) (n : Network)
  (tx : Transaction) : option (Transaction * option hashError) :=
  match verifyTransactionHash Pedersen tx n with
  | Some e => Some (cv_t e, cv_hashFailure e)
  | None => None
  end.

(** The signature hash that the commitment is described with: the array
    hash of the signature for an Invoke, of nothing for the other four. *)
Definition spec_signatureHash (Pedersen : felt -> felt -> felt)
  (tx : Transaction) : felt :=
  match tx with
  | TxInvoke i => PedersenArray Pedersen (inv_TransactionSignature i)
  | TxDeclare _ | TxDeploy _ | TxL1Handler _ | TxDeployAccount _ =>
      PedersenArray Pedersen []
  end.

(** The entries that the commitment is described with: at index [i] the
    key [fromUint64(i)] and the value [pedersen(tx.hash(), sigHash)]. *)
Definition spec_commitmentEntries (Pedersen : felt -> felt -> felt)
  (txs : list Transaction) : list (felt * felt) :=
  imap (fun i tx => (SetUint64 (Z.of_nat i),
                     Pedersen (Hash tx) (spec_signatureHash Pedersen tx)))
       txs.

(** Inserting a list of entries in order, stopping at the first error. *)
Fixpoint putAll {T E : Type} `{TrieOps T E} (entries : list (felt * felt))
  (trie : T) : result E T :=
  match entries with
  | [] => Ok trie
  | (k, v) :: rest =>
      match Put trie k v with
      | Err err => Err err
      | Ok trie' => putAll rest trie'
      end
  end.

(** *** Sample data *)
Module Samples.

(** A stand-in for the Pedersen hash, for evaluating statements on
    concrete transactions. *)
Definition mixHash (a b : felt) : felt := (a * 1000003 + b + 7) mod P.

(** The Declare transaction of scenario S2; its declared hash is not the
    recomputed one. *)
Definition s2Declare : DeclareTransaction :=
  {| decl_TransactionHash := 0; decl_ClassHash := 2;
     decl_SenderAddress := 1; decl_MaxFee := 3;
     decl_TransactionSignature := [11; 12]; decl_Nonce := 4;
     decl_Version := 2; decl_CompiledClassHash := 5 |}.

Definition l1NoNonce : L1HandlerTransaction :=
  {| l1_TransactionHash := 77; l1_ContractAddress := 1;
     l1_EntryPointSelector := 2; l1_Nonce := None; l1_CallData := [3; 4];
     l1_Version := 0 |}.

Definition l1WithNonce : L1HandlerTransaction :=
  {| l1_TransactionHash := 77; l1_ContractAddress := 1;
     l1_EntryPointSelector := 2; l1_Nonce := Some 9; l1_CallData := [3; 4];
     l1_Version := 0 |}.

Definition l1Version1 : L1HandlerTransaction :=
  {| l1_TransactionHash := 77; l1_ContractAddress := 1;
     l1_EntryPointSelector := 2; l1_Nonce := Some 9; l1_CallData := [3; 4];
     l1_Version := 1 |}.

Definition invokeV0 : InvokeTransaction :=
  {| inv_TransactionHash := 5; inv_CallData := [1];
     inv_TransactionSignature := [21; 22; 23]; inv_MaxFee := 1;
     inv_ContractAddress := 8; inv_Version := 0;
     inv_EntryPointSelector := 6; inv_Nonce := 0; inv_SenderAddress := 8 |}.

(** A block: a Declare whose declared hash is wrong, a trusted L1 handler,
    an L1 handler of an unknown version, and a trusted Invoke. *)
Definition sampleBlock : list Transaction :=
  [TxDeclare s2Declare; TxL1Handler l1NoNonce; TxL1Handler l1Version1;
   TxInvoke invokeV0].

End Samples.

Module RpcSamples.
Import Jsonrpc.

(** The Go type [string] as a handler parameter. *)
Definition stringType : GoType :=
  {| ty_Unmarshal := fun j =>
       match j with
       | JString v => Ok (JString v)
       | JNull => Ok (JString "")
       | _ => Err "json: cannot unmarshal into Go value of type string"
       end;
     ty_Zero := JString "" |}.

(** Two of the methods that the node registers: one without parameters and
    one with the single parameter [transaction_hash]. *)
Definition chainIdMethod : Method :=
  {| m_Name := "starknet_chainId";
     m_Params := [];
     m_Handler := HFunc
       {| fn_In := []; fn_IsVariadic := false; fn_SliceAsElem := false;
          fn_NumOut := 2; fn_Out1IsError := true;
          fn_call := fun _ =>
            Returns (Value (JString "0x534e5f4d41494e"), None) |} |}.

Definition getTransactionByHashMethod : Method :=
  {| m_Name := "starknet_getTransactionByHash";
     m_Params := [{| par_Name := "transaction_hash"; par_Optional := false |}];
     m_Handler := HFunc
       {| fn_In := [stringType]; fn_IsVariadic := false;
          fn_SliceAsElem := false; fn_NumOut := 2; fn_Out1IsError := true;
          fn_call := fun args =>
            match args with
            | [JString h] =>
                Returns (Value (JObject [("transaction_hash", JString h)]),
                         None)
            | _ =>
                Returns (Value JNull,
                         Some {| err_Code := 25;
                                 err_Message := "Transaction hash not found";
                                 err_Data := JNull |})
            end |} |}.

Definition registerAll (ms : list Method) : result goError Server :=
  fold_left (fun acc m =>
               match acc with
               | Ok s => RegisterMethod s m
               | Err e => Err e
               end) ms (Ok NewServer).

Definition sampleServer : Server :=
  match registerAll [chainIdMethod; getTransactionByHashMethod] with
  | Ok s => s
  | Err _ => NewServer
  end.

(** The Go type [[]string], the type of the last parameter of a function
    declared with [...string]. *)
Definition stringSliceType : GoType :=
  {| ty_Unmarshal := fun j =>
       match j with
       | JArray l =>
           if forallb (fun v => match v with
                                | JString _ => true
                                | _ => false
                                end) l
           then Ok (JArray l)
           else Err "json: cannot unmarshal into Go value of type []string"
       | JNull => Ok JNull
       | _ => Err "json: cannot unmarshal into Go value of type []string"
       end;
     ty_Zero := JNull |}.

(** A method whose handler is variadic, [func(parts ...string)], and one
    whose handler returns a channel, which [json.Marshal] refuses. *)
Definition joinMethod : Method :=
  {| m_Name := "sample_join";
     m_Params := [{| par_Name := "parts"; par_Optional := false |}];
     m_Handler := HFunc
       {| fn_In := [stringSliceType]; fn_IsVariadic := true;
          fn_SliceAsElem := false; fn_NumOut := 2; fn_Out1IsError := true;
          fn_call := fun args => Returns (Value (JArray args), None) |} |}.

Definition channelMethod : Method :=
  {| m_Name := "sample_channel";
     m_Params := [];
     m_Handler := HFunc
       {| fn_In := []; fn_IsVariadic := false; fn_SliceAsElem := false;
          fn_NumOut := 2; fn_Out1IsError := true;
          fn_call := fun _ =>
            Returns (Unencodable "json: unsupported type: chan int", None) |} |}.

Definition otherServer : Server :=
  match registerAll [chainIdMethod; joinMethod; channelMethod] with
  | Ok s => s
  | Err _ => NewServer
  end.

(** [{"jsonrpc":"2.0","method":name}] with the given further members. *)
Definition call (name : string) (more : list (string * json)) : json :=
  JObject ([("jsonrpc", JString "2.0"); ("method", JString name)] ++ more).

End RpcSamples.

(* ================================================================== *)
(** ** Further code of the two packages *)
(* ================================================================== *)

(** *** Events and receipts ([core/transaction.go]) *)

Record Event : Type := {
  ev_Data : list felt;
  ev_From : felt;
  ev_Keys : list felt
}.

(** A 20-byte Ethereum address, as the number its bytes spell. *)
Definition Address : Type := Z.

Record L1ToL2Message : Type := {
  l1l2_From : Address;
  l1l2_Nonce : felt;
  l1l2_Payload : list felt;
  l1l2_Selector : felt;
  l1l2_To : felt
}.

Record L2ToL1Message : Type := {
  l2l1_From : felt;
  l2l1_Payload : list felt;
  l2l1_To : Address
}.

Record BuiltinInstanceCounter : Type := {
  bic_Bitwise : Z;
  bic_EcOp : Z;
  bic_Ecsda : Z;
  bic_Output : Z;
  bic_Pedersen : Z;
  bic_RangeCheck : Z
}.

Record ExecutionResources : Type := {
  er_BuiltinInstanceCounter : BuiltinInstanceCounter;
  er_MemoryHoles : Z;
  er_Steps : Z
}.

Record TransactionReceipt : Type := {
  rc_Fee : felt;
  rc_Events : list Event;
  rc_ExecutionResources : option ExecutionResources;
  rc_L1ToL2Message : option L1ToL2Message;
  rc_L2ToL1Message : list L2ToL1Message;
  rc_TransactionHash : felt
}.

Section EventCommitment.
Variable Pedersen : felt -> felt -> felt.
Context {T E : Type} `{TrieOps T E}.

(** The hash that [eventCommitment] computes for one event. *)
Definition eventHash (event : Event) : felt :=
  PedersenArray Pedersen
    [ev_From event; PedersenArray Pedersen (ev_Keys event);
     PedersenArray Pedersen (ev_Data event)].

(** The inner loop, over the events of one receipt; [count] is the
    [uint64] counter, and [count++] wraps. *)
Fixpoint eventLoop (count : Z) (events : list Event) (trie : T)
  : result E (Z * T) :=
  match events with
  | [] => Ok (count, trie)
  | event :: rest =>
      match Put trie (SetUint64 count) (eventHash event) with
      | Err err => Err err
      | Ok trie' => eventLoop ((count + 1) mod 2 ^ 64) rest trie'
      end
  end.

(** The outer loop, over the receipts. *)
Fixpoint receiptLoop (count : Z) (receipts : list TransactionReceipt)
  (trie : T) : result E (Z * T) :=
  match receipts with
  | [] => Ok (count, trie)
  | receipt :: rest =>
      match eventLoop count (rc_Events receipt) trie with
      | Err err => Err err
      | Ok (count', trie') => receiptLoop count' rest trie'
      end
  end.

Definition eventCommitmentBody (receipts : list TransactionReceipt)
  (trie : T) : option felt * option E :=
  match receiptLoop 0 receipts trie with
  | Err err => (None, Some err)
  | Ok (_, trie') =>
      match Root trie' with
      | Err err => (None, Some err)
      | Ok root => (Some root, None)
      end
  end.

Definition eventCommitment (receipts : list TransactionReceipt)
  : option felt * option E :=
  RunOnTempTrie commitmentTrieHeight (eventCommitmentBody receipts).

(** What both commitments return for a trie filled with the given
    entries. *)
Definition commitEntries (entries : list (felt * felt))
  : option felt * option E :=
  match putAll entries (NewTrie commitmentTrieHeight) with
  | Err err => (None, Some err)
  | Ok trie =>
      match Root trie with
      | Err err => (None, Some err)
      | Ok root => (Some root, None)
      end
  end.

End EventCommitment.

(** All events of a list of receipts, in order. *)
Definition allEvents (receipts : list TransactionReceipt) : list Event :=
  concat (map rc_Events receipts).

(** The versions for which each variant has a hash recipe or is trusted. *)
Definition supportedVersion (tx : Transaction) : bool :=
  match tx with
  | TxDeclare d =>
      (decl_Version d =? 0) || (decl_Version d =? 1) || (decl_Version d =? 2)
  | TxInvoke i => (inv_Version i =? 0) || (inv_Version i =? 1)
  | TxDeploy _ => true
  | TxL1Handler l => l1_Version l =? 0
  | TxDeployAccount d => dep_Version (da_DeployTransaction d) =? 1
  end.

Definition versionOf (tx : Transaction) : felt :=
  match tx with
  | TxDeclare d => decl_Version d
  | TxInvoke i => inv_Version i
  | TxDeploy d => dep_Version d
  | TxL1Handler l => l1_Version l
  | TxDeployAccount d => dep_Version (da_DeployTransaction d)
  end.

(** The transactions whose declared hash is returned as it is. *)
Definition trusted (tx : Transaction) : bool :=
  match tx with
  | TxDeclare d => decl_Version d =? 0
  | TxInvoke i => inv_Version i =? 0
  | TxDeploy _ => true
  | TxL1Handler l =>
      (l1_Version l =? 0) &&
      match l1_Nonce l with
      | None => true
      | Some _ => false
      end
  | TxDeployAccount _ => false
  end.

(** The transaction with its signature replaced; a Deploy and an
    L1Handler transaction have no signature field. *)
Definition setSignature (sig : list felt) (tx : Transaction) : Transaction :=
  match tx with
  | TxDeclare d =>
      TxDeclare
        {| decl_TransactionHash := decl_TransactionHash d;
           decl_ClassHash := decl_ClassHash d;
           decl_SenderAddress := decl_SenderAddress d;
           decl_MaxFee := decl_MaxFee d;
           decl_TransactionSignature := sig;
           decl_Nonce := decl_Nonce d;
           decl_Version := decl_Version d;
           decl_CompiledClassHash := decl_CompiledClassHash d |}
  | TxInvoke i =>
      TxInvoke
        {| inv_TransactionHash := inv_TransactionHash i;
           inv_CallData := inv_CallData i;
           inv_TransactionSignature := sig;
           inv_MaxFee := inv_MaxFee i;
           inv_ContractAddress := inv_ContractAddress i;
           inv_Version := inv_Version i;
           inv_EntryPointSelector := inv_EntryPointSelector i;
           inv_Nonce := inv_Nonce i;
           inv_SenderAddress := inv_SenderAddress i |}
  | TxDeployAccount d =>
      TxDeployAccount
        {| da_DeployTransaction := da_DeployTransaction d;
           da_MaxFee := da_MaxFee d;
           da_TransactionSignature := sig;
           da_Nonce := da_Nonce d |}
  | TxDeploy _ | TxL1Handler _ => tx
  end.

(** Two transactions that the transaction commitment cannot tell apart:
    the same declared hash and, when either is an Invoke, both are and
    carry the same signature. *)
Definition sameCommitmentInput (t t' : Transaction) : Prop :=
  Hash t = Hash t' /\
  match t, t' with
  | TxInvoke i, TxInvoke i' =>
      inv_TransactionSignature i = inv_TransactionSignature i'
  | TxInvoke _, _ | _, TxInvoke _ => False
  | _, _ => True
  end.

(** *** The first byte of a request ([jsonrpc/server.go]) *)

(** [isBatch] on the bytes that the buffered reader holds: [Peek(1)] fails
    at the end of the input, and [Discard(1)] after a successful peek drops
    the byte that was seen.  The bytes 32, 9, 13 and 10 are the space, the
    tab, the carriage return and the line feed; 91 is the opening
    bracket. *)
Definition isSpaceByte (c : Ascii.ascii) : bool :=
  Ascii.eqb c (Ascii.ascii_of_nat 32) || Ascii.eqb c (Ascii.ascii_of_nat 9)
  || Ascii.eqb c (Ascii.ascii_of_nat 13) || Ascii.eqb c (Ascii.ascii_of_nat 10).

Fixpoint isBatchBytes (reader : list Ascii.ascii) : bool :=
  match reader with
  | [] => false
  | char :: rest =>
      if isSpaceByte char then isBatchBytes rest
      else Ascii.eqb char (Ascii.ascii_of_nat 91)
  end.

(** The [params] and [id] values that [isSane] lets through. *)
Definition validParams (params : Jsonrpc.json) : bool :=
  match params with
  | Jsonrpc.JNull | Jsonrpc.JArray _ | Jsonrpc.JObject _ => true
  | _ => false
  end.

Definition validID (id : Jsonrpc.json) : bool :=
  match id with
  | Jsonrpc.JNull | Jsonrpc.JString _ => true
  | Jsonrpc.JNumber n => negb (Jsonrpc.Contains n ".")
  | _ => false
  end.

(** What [RegisterMethod] requires of a method's handler. *)
Definition validHandler (method : Jsonrpc.Method) : Prop :=
  exists f,
    Jsonrpc.m_Handler method = Jsonrpc.HFunc f /\
    List.length (Jsonrpc.fn_In f) = List.length (Jsonrpc.m_Params method) /\
    Jsonrpc.fn_NumOut f = 2%nat /\
    Jsonrpc.fn_Out1IsError f = true.

(** *** Further sample data *)
Module MoreSamples.
Import Samples.

Definition invokeV1 : InvokeTransaction :=
  {| inv_TransactionHash := 5; inv_CallData := [1; 2];
     inv_TransactionSignature := [21]; inv_MaxFee := 3;
     inv_ContractAddress := 8; inv_Version := 1;
     inv_EntryPointSelector := 6; inv_Nonce := 4; inv_SenderAddress := 9 |}.

Definition declareV0 : DeclareTransaction :=
  {| decl_TransactionHash := 41; decl_ClassHash := 2;
     decl_SenderAddress := 1; decl_MaxFee := 3;
     decl_TransactionSignature := []; decl_Nonce := 4;
     decl_Version := 0; decl_CompiledClassHash := 0 |}.

Definition declareV1 : DeclareTransaction :=
  {| decl_TransactionHash := 41; decl_ClassHash := 2;
     decl_SenderAddress := 1; decl_MaxFee := 3;
     decl_TransactionSignature := []; decl_Nonce := 4;
     decl_Version := 1; decl_CompiledClassHash := 0 |}.

Definition sampleDeploy (version : felt) : DeployTransaction :=
  {| dep_TransactionHash := 30; dep_ContractAddressSalt := 31;
     dep_ContractAddress := 32; dep_ClassHash := 33;
     dep_ConstructorCallData := [34; 35]; dep_Version := version |}.

Definition sampleDeployAccount (version : felt) : DeployAccountTransaction :=
  {| da_DeployTransaction := sampleDeploy version; da_MaxFee := 36;
     da_TransactionSignature := [37]; da_Nonce := 38 |}.

Definition sampleEvent (from : felt) : Event :=
  {| ev_Data := [from + 1]; ev_From := from; ev_Keys := [from + 2] |}.

Definition sampleReceipt (events : list Event) : TransactionReceipt :=
  {| rc_Fee := 0; rc_Events := events; rc_ExecutionResources := None;
     rc_L1ToL2Message := None; rc_L2ToL1Message := [];
     rc_TransactionHash := 0 |}.

End MoreSamples.

(* ================================================================== *)
(** ** Properties of package [core] *)
(* ================================================================== *)

Section CoreProperties.

Variable Pedersen : felt -> felt -> felt.

Notation "'P*' xs" := (PedersenArray Pedersen xs)
  (at level 10, xs at level 9, only parsing).

(** *** Transaction hashes *)

Lemma version_two_not_zero_nor_one (v : felt) :
  v = 2 -> IsZero v = false /\ IsOne v = false /\ Equal v (SetUint64 2) = true.
Proof. intros ->. repeat split. Qed.

(** C1. A Declare transaction of version 2 hashes to
    [P*("declare", 2, senderAddress, 0, P*(classHash), maxFee, C, nonce,
    compiledClassHash)] with [C] the chain identifier of the network, which
    is also the hash that [transactionHash] recomputes for it; with sender
    1, class hash 2, max fee 3, nonce 4 and compiled class hash 5 on
    MAINNET this is [P*("declare", 2, 1, 0, P*(2), 3, chainIdMain, 4, 5)]. *)
Theorem declare_v2_hash (d : DeclareTransaction) (n : Network)
  (Hversion : decl_Version d = 2) :
  let recipe :=
    P* [SetBytes "declare"; 2; decl_SenderAddress d; 0;
        P* [decl_ClassHash d]; decl_MaxFee d; ChainID n; decl_Nonce d;
        decl_CompiledClassHash d] in
  declareTransactionHash Pedersen d n = Ok recipe /\
  transactionHash Pedersen (TxDeclare d) n = Ok recipe /\
  (n = MAINNET -> decl_SenderAddress d = 1 -> decl_ClassHash d = 2 ->
   decl_MaxFee d = 3 -> decl_Nonce d = 4 -> decl_CompiledClassHash d = 5 ->
   transactionHash Pedersen (TxDeclare d) n =
     Ok (P* [SetBytes "declare"; 2; 1; 0; P* [2]; 3; SetBytes "SN_MAIN";
             4; 5])).
Proof.
  assert (Hrecipe : declareTransactionHash Pedersen d n =
    Ok (P* [SetBytes "declare"; 2; decl_SenderAddress d; 0;
            P* [decl_ClassHash d]; decl_MaxFee d; ChainID n; decl_Nonce d;
            decl_CompiledClassHash d])).
  { unfold declareTransactionHash.
    destruct (version_two_not_zero_nor_one _ Hversion) as (-> & -> & ->).
    rewrite Hversion. reflexivity. }
  cbv zeta. split; [exact Hrecipe|]. split; [exact Hrecipe|].
  intros -> Hs Hc Hm Hn Hcc. cbn [transactionHash]. rewrite Hrecipe.
  rewrite Hs, Hc, Hm, Hn, Hcc. reflexivity.
Qed.

(** C2. An L1Handler transaction of version 0 without a nonce hashes to its
    declared hash and so never mismatches; with a nonce it hashes to
    [P*("l1_handler", 0, contractAddress, entryPointSelector,
    P*(callData...), 0, C, nonce)]; of any other version its hashing fails
    with the invalid-version error. *)
Theorem l1_handler_hash (l : L1HandlerTransaction) (n : Network) :
  (l1_Version l = 0 -> l1_Nonce l = None ->
     l1HandlerTransactionHash Pedersen l n = Ok (l1_TransactionHash l) /\
     transactionHash Pedersen (TxL1Handler l) n = Ok (Hash (TxL1Handler l)) /\
     verifyTransactionHash Pedersen (TxL1Handler l) n = None) /\
  (forall nonce, l1_Version l = 0 -> l1_Nonce l = Some nonce ->
     transactionHash Pedersen (TxL1Handler l) n =
       Ok (P* [SetBytes "l1_handler"; 0; l1_ContractAddress l;
               l1_EntryPointSelector l; P* (l1_CallData l); 0; ChainID n;
               nonce])) /\
  (l1_Version l <> 0 ->
     transactionHash Pedersen (TxL1Handler l) n =
       Err (InvalidTransactionVersion (TxL1Handler l) (l1_Version l)) /\
     exists e, verifyTransactionHash Pedersen (TxL1Handler l) n = Some e).
Proof.
  split; [|split].
  - intros Hv Hn.
    assert (Hh : l1HandlerTransactionHash Pedersen l n
                 = Ok (l1_TransactionHash l)).
    { unfold l1HandlerTransactionHash. rewrite Hv, Hn. reflexivity. }
    split; [exact Hh|]. split; [exact Hh|].
    unfold verifyTransactionHash. cbn [transactionHash Hash]. rewrite Hh.
    unfold Equal. rewrite Z.eqb_refl. reflexivity.
  - intros nonce Hv Hn. cbn [transactionHash].
    unfold l1HandlerTransactionHash. rewrite Hv, Hn. reflexivity.
  - intros Hv. cbn [transactionHash].
    assert (Hh : l1HandlerTransactionHash Pedersen l n
                 = Err (InvalidTransactionVersion (TxL1Handler l) (l1_Version l))).
    { unfold l1HandlerTransactionHash, IsZero.
      destruct (Z.eqb_spec (l1_Version l) 0) as [Heq|_]; [contradiction|].
      reflexivity. }
    split; [exact Hh|].
    unfold verifyTransactionHash. cbn [transactionHash]. rewrite Hh.
    eexists. reflexivity.
Qed.

(** *** Hash verification *)

Lemma chain_Unwrap (e : CantVerifyTransactionHashError) :
  chain e = (cv_t e, cv_hashFailure e) :: chainOf (Unwrap e).
Proof. destruct e as [t f [e'|]]; reflexivity. Qed.

Lemma chainOf_nil (h : option CantVerifyTransactionHashError) :
  chainOf h = [] <-> h = None.
Proof.
  destruct h as [e|]; simpl; [|tauto].
  rewrite chain_Unwrap. split; discriminate.
Qed.

Lemma chainOf_link t f (head : option CantVerifyTransactionHashError) :
  chainOf (Some (mkCantVerify t f head)) = (t, f) :: chainOf head.
Proof. destruct head; reflexivity. Qed.

Lemma verifyStep_chain (n : Network) head tx :
  chainOf (verifyStep Pedersen n head tx)
  = match failureOf Pedersen n tx with
    | Some entry => entry :: chainOf head
    | None => chainOf head
    end.
Proof.
  unfold verifyStep, failureOf.
  destruct (verifyTransactionHash Pedersen tx n) as [err|]; [|reflexivity].
  apply chainOf_link.
Qed.

(** The loop links each failure in front of the failures found so far. *)
Lemma verifyLoop_chain (n : Network) (txs : list Transaction) head :
  chainOf (fold_left (verifyStep Pedersen n) txs head)
  = rev (omap (failureOf Pedersen n) txs) ++ chainOf head.
Proof.
  revert head. induction txs as [|tx txs IH]; intros head; [reflexivity|].
  cbn [fold_left]. rewrite IH, verifyStep_chain. cbn [omap list_omap].
  destruct (failureOf Pedersen n tx) as [entry|]; [|reflexivity].
  cbn [rev]. rewrite <- app_assoc. reflexivity.
Qed.

Lemma failureOf_mismatches (n : Network) (tx : Transaction) :
  match failureOf Pedersen n tx with
  | Some entry => fst entry = tx /\ mismatches Pedersen n tx = true
  | None => mismatches Pedersen n tx = false
  end.
Proof.
  unfold failureOf, verifyTransactionHash, mismatches.
  destruct (transactionHash Pedersen tx n) as [h|err]; [|split; reflexivity].
  destruct (negb (Equal h (Hash tx))); [split; reflexivity|reflexivity].
Qed.

Lemma failures_filter (n : Network) (txs : list Transaction) :
  map fst (omap (failureOf Pedersen n) txs) = List.filter (mismatches Pedersen n) txs.
Proof.
  induction txs as [|tx txs IH]; [reflexivity|].
  cbn [omap list_omap List.filter].
  pose proof (failureOf_mismatches n tx) as Hf.
  destruct (failureOf Pedersen n tx) as [entry|].
  - destruct Hf as [Ht ->]. cbn [map]. cbn [omap] in IH. rewrite IH, Ht.
    reflexivity.
  - rewrite Hf. exact IH.
Qed.

Lemma chain_transactions (n : Network) (txs : list Transaction) :
  map fst (chainOf (verifyTransactions Pedersen txs n))
  = rev (List.filter (mismatches Pedersen n) txs).
Proof.
  unfold verifyTransactions. rewrite verifyLoop_chain. cbn [chainOf].
  rewrite app_nil_r, map_rev, failures_filter. reflexivity.
Qed.

Lemma filter_nil_iff {A : Type} (f : A -> bool) (l : list A) :
  List.filter f l = [] <-> forall x, In x l -> f x = false.
Proof.
  induction l as [|a l IH]; cbn [List.filter].
  - split; [intros _ x []|reflexivity].
  - destruct (f a) eqn:Hfa.
    + split; [discriminate|]. intros Hall.
      rewrite (Hall a (or_introl eq_refl)) in Hfa. discriminate.
    + rewrite IH. split.
      * intros Hall x [<-|Hin]; [exact Hfa|apply Hall, Hin].
      * intros Hall x Hin. apply Hall. right. exact Hin.
Qed.

(** C3. [verifyTransactions] checks every entry: it returns no error
    exactly when no transaction of the list mismatches, and otherwise the
    chain it returns has as many nodes as there are transactions whose
    hashing failed or whose recomputed hash differs from the declared
    one. *)
Theorem verify_transactions_total (txs : list Transaction) (n : Network) :
  (verifyTransactions Pedersen txs n = None <->
   forall tx, In tx txs -> mismatches Pedersen n tx = false) /\
  List.length (chainOf (verifyTransactions Pedersen txs n))
  = List.length (List.filter (mismatches Pedersen n) txs).
Proof.
  pose proof (chain_transactions n txs) as Hc.
  assert (Hlen : List.length (chainOf (verifyTransactions Pedersen txs n))
                 = List.length (List.filter (mismatches Pedersen n) txs)).
  { rewrite <- (length_map fst), Hc, length_rev. reflexivity. }
  split; [|exact Hlen].
  rewrite <- chainOf_nil, <- filter_nil_iff.
  destruct (chainOf (verifyTransactions Pedersen txs n));
    destruct (List.filter (mismatches Pedersen n) txs);
    cbn in Hlen; split; intros Heq; try reflexivity; discriminate.
Qed.

(** C9. The chain that [verifyTransactions] returns lists the mismatching
    transactions in reverse input order: its head is the mismatch of the
    last failing transaction of the list, and following [Unwrap] walks back
    to the first failing one. *)
Theorem verify_transactions_reverse_order (txs : list Transaction)
  (n : Network) :
  map fst (chainOf (verifyTransactions Pedersen txs n))
  = rev (List.filter (mismatches Pedersen n) txs) /\
  (forall e, verifyTransactions Pedersen txs n = Some e ->
     last (List.filter (mismatches Pedersen n) txs) = Some (cv_t e) /\
     map fst (chainOf (Unwrap e))
     = tail (rev (List.filter (mismatches Pedersen n) txs))).
Proof.
  pose proof (chain_transactions n txs) as Hc.
  split; [exact Hc|].
  intros e He. rewrite He in Hc. cbn [chainOf] in Hc.
  rewrite chain_Unwrap in Hc. cbn [map fst] in Hc.
  rewrite <- Hc. split; [|reflexivity].
  rewrite <- (rev_involutive (List.filter _ _)), <- Hc.
  cbn [rev]. apply last_snoc.
Qed.

(** *** Transaction commitment *)

Section CommitmentProperties.
Context {T E : Type} `{TrieOps T E}.

Lemma signatureHash_spec (tx : Transaction) :
  (if isInvokeTransaction tx
   then PedersenArray Pedersen (Signature tx)
   else PedersenArray Pedersen [])
  = spec_signatureHash Pedersen tx.
Proof. destruct tx; reflexivity. Qed.

Lemma uint64_small (i : nat) : Z.of_nat i < 2 ^ 64 -> uint64 i = Z.of_nat i.
Proof. intros Hi. unfold uint64. apply Z.mod_small. lia. Qed.

Lemma commitmentLoop_from (i : nat) (txs : list Transaction) (trie : T) :
  Z.of_nat (i + List.length txs) <= 2 ^ 64 ->
  commitmentLoop Pedersen i txs trie
  = putAll (imap (fun j tx =>
                    (SetUint64 (Z.of_nat (i + j)),
                     Pedersen (Hash tx) (spec_signatureHash Pedersen tx)))
                 txs) trie.
Proof.
  revert i trie. induction txs as [|tx txs IH]; intros i trie Hlen;
    [reflexivity|].
  cbn [List.length] in Hlen.
  cbn [commitmentLoop imap putAll]. rewrite signatureHash_spec.
  rewrite uint64_small by lia. rewrite Nat.add_0_r.
  destruct (Put trie _ _) as [trie'|err]; [|reflexivity].
  rewrite IH by lia. f_equal. apply imap_ext. intros j tx' _. cbn.
  repeat f_equal. lia.
Qed.

(** C4. [transactionCommitment] inserts, at each index [i], the key
    [fromUint64(i)] with the value [pedersen(tx.hash(), sigHash)], where
    [sigHash] is the array hash of the signature for an Invoke and the
    empty-array hash for every other variant, and returns the root of the
    trie so filled. *)
Theorem transaction_commitment_entries (txs : list Transaction)
  (Hlen : Z.of_nat (List.length txs) <= 2 ^ 64) :
  (forall trie : T,
     commitmentLoop Pedersen 0 txs trie
     = putAll (spec_commitmentEntries Pedersen txs) trie) /\
  transactionCommitment Pedersen txs
  = match putAll (spec_commitmentEntries Pedersen txs) (NewTrie 64) with
    | Err err => (None, Some err)
    | Ok trie =>
        match Root trie with
        | Err err => (None, Some err)
        | Ok root => (Some root, None)
        end
    end.
Proof.
  assert (Hloop : forall trie : T,
            commitmentLoop Pedersen 0 txs trie
            = putAll (spec_commitmentEntries Pedersen txs) trie).
  { intros trie. rewrite commitmentLoop_from by (cbn; lia). reflexivity. }
  split; [exact Hloop|].
  unfold transactionCommitment, RunOnTempTrie, commitmentBody,
    commitmentTrieHeight.
  rewrite Hloop. reflexivity.
Qed.

End CommitmentProperties.

End CoreProperties.

(** *** Instances on the sample data *)

Import Samples.

Lemma declare_v2_hash_witness :
  decl_Version s2Declare = 2 /\
  transactionHash mixHash (TxDeclare s2Declare) MAINNET
  = Ok (PedersenArray mixHash
          [SetBytes "declare"; 2; 1; 0; PedersenArray mixHash [2]; 3;
           SetBytes "SN_MAIN"; 4; 5]).
Proof.
  split; [reflexivity|].
  destruct (declare_v2_hash mixHash s2Declare MAINNET eq_refl)
    as (_ & _ & Hs2).
  exact (Hs2 eq_refl eq_refl eq_refl eq_refl eq_refl eq_refl).
Defined.

Lemma l1_handler_hash_witness :
  verifyTransactionHash mixHash (TxL1Handler l1NoNonce) MAINNET = None /\
  transactionHash mixHash (TxL1Handler l1WithNonce) MAINNET
  = Ok (PedersenArray mixHash
          [SetBytes "l1_handler"; 0; 1; 2; PedersenArray mixHash [3; 4]; 0;
           SetBytes "SN_MAIN"; 9]) /\
  transactionHash mixHash (TxL1Handler l1Version1) MAINNET
  = Err (InvalidTransactionVersion (TxL1Handler l1Version1) 1).
Proof.
  split; [|split].
  - destruct (l1_handler_hash mixHash l1NoNonce MAINNET) as (Hnone & _ & _).
    destruct (Hnone eq_refl eq_refl) as (_ & _ & Hv). exact Hv.
  - destruct (l1_handler_hash mixHash l1WithNonce MAINNET) as (_ & Hsome & _).
    exact (Hsome 9 eq_refl eq_refl).
  - destruct (l1_handler_hash mixHash l1Version1 MAINNET) as (_ & _ & Hbad).
    assert (Hne : l1_Version l1Version1 <> 0) by discriminate.
    destruct (Hbad Hne) as [Herr _]. exact Herr.
Defined.

Lemma verify_transactions_total_witness :
  verifyTransactions mixHash sampleBlock MAINNET <> None /\
  List.length (chainOf (verifyTransactions mixHash sampleBlock MAINNET)) = 2%nat.
Proof.
  destruct (verify_transactions_total mixHash sampleBlock MAINNET)
    as [Hiff Hlen].
  split.
  - intros Hnone. destruct Hiff as [Hall _].
    specialize (Hall Hnone (TxDeclare s2Declare) (or_introl eq_refl)).
    vm_compute in Hall. discriminate Hall.
  - rewrite Hlen. reflexivity.
Defined.

Lemma verify_transactions_reverse_order_witness :
  map fst (chainOf (verifyTransactions mixHash sampleBlock MAINNET))
  = [TxL1Handler l1Version1; TxDeclare s2Declare] /\
  last [TxDeclare s2Declare; TxL1Handler l1Version1]
  = Some (TxL1Handler l1Version1).
Proof.
  destruct (verify_transactions_reverse_order mixHash sampleBlock MAINNET)
    as [Horder Hhead].
  split; [rewrite Horder; reflexivity|].
  destruct (verifyTransactions mixHash sampleBlock MAINNET) as [e|] eqn:He;
    [|vm_compute in He; discriminate He].
  destruct (Hhead e eq_refl) as [Hlast _].
  vm_compute in He. injection He as <-. reflexivity.
Defined.

Lemma transaction_commitment_entries_witness :
  commitmentLoop (T := recordingTrie) mixHash 0 sampleBlock []
  = Ok [(0, mixHash 0 (PedersenArray mixHash []));
        (1, mixHash 77 (PedersenArray mixHash []));
        (2, mixHash 77 (PedersenArray mixHash []));
        (3, mixHash 5 (PedersenArray mixHash [21; 22; 23]))].
Proof.
  assert (Hlen : Z.of_nat (List.length sampleBlock) <= 2 ^ 64)
    by (vm_compute; discriminate).
  destruct (transaction_commitment_entries mixHash (T := recordingTrie)
              sampleBlock Hlen) as [Hloop _].
  rewrite Hloop. reflexivity.
Defined.

(* ================================================================== *)
(** ** Properties of package [jsonrpc] *)
(* ================================================================== *)

Section RpcProperties.
Import Jsonrpc.

(** *** Error objects *)

(** C7. For each of the five codes, [rpcErr] builds an error with that code
    and the message [Parse error], [Invalid Request], [Method Not Found],
    [Invalid Params] or [Internal Error]; every other code is turned into
    the internal error. *)
Theorem rpcErr_messages (data : json) :
  rpcErr (-32700) data
  = {| err_Code := -32700; err_Message := "Parse error"; err_Data := data |} /\
  rpcErr (-32600) data
  = {| err_Code := -32600; err_Message := "Invalid Request";
       err_Data := data |} /\
  rpcErr (-32601) data
  = {| err_Code := -32601; err_Message := "Method Not Found";
       err_Data := data |} /\
  rpcErr (-32602) data
  = {| err_Code := -32602; err_Message := "Invalid Params";
       err_Data := data |} /\
  rpcErr (-32603) data
  = {| err_Code := -32603; err_Message := "Internal Error";
       err_Data := data |} /\
  (forall code,
     code <> -32700 -> code <> -32600 -> code <> -32601 -> code <> -32602 ->
     rpcErr code data = rpcErr (-32603) data).
Proof.
  repeat split.
  intros code H1 H2 H3 H4. unfold rpcErr, InvalidJSON, InvalidRequest,
    MethodNotFound, InvalidParams.
  destruct (Z.eqb_spec code (-32700)); [contradiction|].
  destruct (Z.eqb_spec code (-32600)); [contradiction|].
  destruct (Z.eqb_spec code (-32601)); [contradiction|].
  destruct (Z.eqb_spec code (-32602)); [contradiction|].
  reflexivity.
Qed.

(** *** The registry *)

Lemma registered_handler (s : Server) :
  registered s ->
  forall (k : string) (m : Method), methods s !! k = Some m ->
  exists f, m_Handler m = HFunc f /\
            List.length (fn_In f) = List.length (m_Params m).
Proof.
  induction 1 as [|s s' method Hreg IH Hstep]; intros k m Hk.
  - cbn in Hk. rewrite lookup_empty in Hk. discriminate.
  - unfold RegisterMethod in Hstep.
    destruct (m_Handler method) as [|f] eqn:Hh; [discriminate|].
    destruct (Nat.eqb_spec (List.length (fn_In f))
                           (List.length (m_Params method))) as [Hlen|];
      [|discriminate].
    cbn [negb] in Hstep.
    destruct (negb (fn_NumOut f =? 2)%nat); [discriminate|].
    destruct (negb (fn_Out1IsError f)); [discriminate|].
    injection Hstep as <-. cbn [methods] in Hk.
    destruct (decide (m_Name method = k)) as [Heq|Hne].
    + subst k. rewrite lookup_insert_eq in Hk. injection Hk as <-.
      exists f. split; assumption.
    + rewrite lookup_insert_ne in Hk by exact Hne. exact (IH k m Hk).
Qed.

(** *** Requests without an identifier *)

Lemma handleRequest_sane_error (s : Server) (req : request) err :
  isSane req = Some err -> handleRequest s req = Returns (Err err).
Proof. intros Hs. unfold handleRequest. rewrite Hs. reflexivity. Qed.

Lemma handleRequest_notification (s : Server) (req : request) m args tuple :
  isSane req = None -> req_ID req = JNull ->
  methods s !! req_Method req = Some m ->
  buildArguments (req_Params req) (m_Handler m) (m_Params m)
  = Returns (Ok args) ->
  Call (m_Handler m) args = Returns tuple ->
  handleRequest s req = Returns (Ok None).
Proof.
  intros Hs Hid Hm Hb Hc. unfold handleRequest.
  rewrite Hs, Hm, Hb. cbn [mbind outcome_bind]. rewrite Hc.
  cbn [res_ID]. rewrite Hid. reflexivity.
Qed.

Lemma decodeRequest_single (d : json) (req : request) :
  decodeRequest d = Ok req -> isBatch (Document d) = false.
Proof. destruct d; cbn; solve [discriminate | reflexivity]. Qed.

(** A document that decodes into a request is served alone as it is served
    inside a batch. *)
Lemma single_as_element (s : Server) (d : json) (req : request) :
  decodeRequest d = Ok req ->
  HandleReader s (Document d) = (r ← handleElement s d; Returns (asSingle r)).
Proof.
  intros Hd. unfold HandleReader, handleElement.
  rewrite (decodeRequest_single d req Hd). cbn [negb decodeSingle].
  rewrite Hd. destruct (handleRequest s req) as [[[r|]|err]|]; reflexivity.
Qed.

(** X23. A sane request without an [id] whose method is registered, whose
    arguments bind and whose handler call returns gets no response: no
    bytes when it is sent alone, no entry in the output array when it is
    part of a batch, wherever it stands in the batch. *)
Theorem notification_suppressed (s : Server) (d : json) (req : request)
  (m : Method) (args : list json) (tuple : any * option Error)
  (Hdecode : decodeRequest d = Ok req)
  (Hid : req_ID req = JNull)
  (Hsane : isSane req = None)
  (Hm : methods s !! req_Method req = Some m)
  (Hbind : buildArguments (req_Params req) (m_Handler m) (m_Params m)
           = Returns (Ok args))
  (Hcall : Call (m_Handler m) args = Returns tuple) :
  HandleReader s (Document d) = Returns NoBytes /\
  handleElement s d = Returns None /\
  forall before rest batchRes,
    handleBatch s (before ++ d :: rest) batchRes
    = handleBatch s (before ++ rest) batchRes.
Proof.
  assert (He : handleElement s d = Returns None).
  { unfold handleElement. rewrite Hdecode.
    rewrite (handleRequest_notification s req m args tuple
               Hsane Hid Hm Hbind Hcall).
    reflexivity. }
  split; [|split].
  - rewrite (single_as_element s d req Hdecode), He. reflexivity.
  - exact He.
  - intros before rest.
    induction before as [|rawReq before IH]; intros batchRes.
    + cbn [app handleBatch]. rewrite He. reflexivity.
    + cbn [app handleBatch].
      destruct (handleElement s rawReq) as [[r|]|]; cbn [mbind outcome_bind];
        [destruct (Marshal r); [reflexivity|apply IH]|apply IH|reflexivity].
Qed.

(** *** Batches *)

(** C6. A batch element that decodes into a request is processed exactly
    as that request sent alone.  An element whose decoding fails produces a
    response with code [-32600] and a null [id], where the same document
    sent alone produces [-32700]; an element that decodes but fails the
    sanity checks produces [-32600], with the element's [id] unless the
    failure is the one about the [id]. *)
Theorem batch_element_processing (s : Server) (d : json) :
  (forall req, decodeRequest d = Ok req ->
     HandleReader s (Document d)
     = (r ← handleElement s d; Returns (asSingle r))) /\
  (forall e, decodeRequest d = Err e ->
     let res := errorResponse JNull
                  (rpcErr (-32600) (JString (errorText e))) in
     handleElement s d = Returns (Some res) /\
     errorCode res = Some (-32600) /\
     (isBatch (Document d) = false ->
      HandleReader s (Document d)
      = Returns (Single (errorResponse JNull
                           (rpcErr (-32700) (JString (errorText e))))))) /\
  (forall req err, decodeRequest d = Ok req -> isSane req = Some err ->
     let res := errorResponse
                  (if isErrInvalidID err then JNull else req_ID req)
                  (rpcErr (-32600) (JString (errorText err))) in
     handleElement s d = Returns (Some res) /\
     errorCode res = Some (-32600) /\
     HandleReader s (Document d) = Returns (Single res)).
Proof.
  split; [|split].
  - intros req Hd. exact (single_as_element s d req Hd).
  - intros e Hd. cbv zeta. split; [|split].
    + unfold handleElement. rewrite Hd. reflexivity.
    + reflexivity.
    + intros Hb. unfold HandleReader. rewrite Hb. cbn [negb decodeSingle].
      rewrite Hd. reflexivity.
  - intros req err Hd Hs.
    assert (He : handleElement s d
                 = Returns (Some (errorResponse
                     (if isErrInvalidID err then JNull else req_ID req)
                     (rpcErr (-32600) (JString (errorText err)))))).
    { unfold handleElement. rewrite Hd.
      rewrite (handleRequest_sane_error s req err Hs).
      cbn [mbind outcome_bind].
      destruct (isErrInvalidID err); reflexivity. }
    cbv zeta. split; [exact He|]. split; [reflexivity|].
    rewrite (single_as_element s d req Hd), He. reflexivity.
Qed.

(** *** Absent parameters *)


(** *** A null identifier *)

Lemma decodeMember_id_null (st : request * option goError) :
  decodeMember st ("id", JNull)
  = ({| req_Version := req_Version (fst st); req_Method := req_Method (fst st);
        req_Params := req_Params (fst st); req_ID := JNull |}, snd st).
Proof. reflexivity. Qed.

Lemma decodeMember_keeps_id (st : request * option goError)
  (kv : string * json) :
  fieldMatches "id" (fst kv) = false ->
  req_ID (fst (decodeMember st kv)) = req_ID (fst st).
Proof.
  intros Hk. unfold decodeMember. rewrite Hk.
  destruct (fieldMatches "jsonrpc" (fst kv));
    [destruct (snd kv); reflexivity|].
  destruct (fieldMatches "method" (fst kv));
    [destruct (snd kv); reflexivity|].
  destruct (fieldMatches "params" (fst kv)); reflexivity.
Qed.

Lemma decode_keeps_id (members : list (string * json))
  (st : request * option goError) :
  Forall (fun kv => fieldMatches "id" (fst kv) = false) members ->
  req_ID (fst (fold_left decodeMember members st)) = req_ID (fst st).
Proof.
  intros Hall. revert st.
  induction Hall as [|kv members Hkv _ IH]; intros st; [reflexivity|].
  cbn [fold_left]. rewrite IH. apply decodeMember_keeps_id, Hkv.
Qed.

Lemma isSane_null_id (req : request) :
  req_ID req = JNull -> isSane req <> Some ErrInvalidID.
Proof.
  intros Hid. unfold isSane. rewrite Hid.
  destruct (negb _); [discriminate|].
  destruct (String.eqb _ _); [discriminate|].
  destruct (req_Params req); discriminate.
Qed.

(** C10. A request whose [id] member is [null] is the request without
    that member: both decode to the same request and are served alike; the
    sanity check does not reject it for its [id]; and when its method is
    registered and its arguments bind it is a notification, which gets no
    response. *)
Theorem null_id_as_absent (s : Server) (members : list (string * json))
  (Hnoid : Forall (fun kv => fieldMatches "id" (fst kv) = false) members) :
  let withNull := JObject (members ++ [("id", JNull)]) in
  decodeRequest withNull = decodeRequest (JObject members) /\
  HandleReader s (Document withNull)
  = HandleReader s (Document (JObject members)) /\
  (forall req, decodeRequest withNull = Ok req ->
     req_ID req = JNull /\
     isSane req <> Some ErrInvalidID /\
     forall m args tuple,
       isSane req = None ->
       methods s !! req_Method req = Some m ->
       buildArguments (req_Params req) (m_Handler m) (m_Params m)
       = Returns (Ok args) ->
       Call (m_Handler m) args = Returns tuple ->
       HandleReader s (Document withNull) = Returns NoBytes).
Proof.
  cbv zeta.
  assert (Hdec : decodeRequest (JObject (members ++ [("id", JNull)]))
                 = decodeRequest (JObject members)).
  { cbn [decodeRequest]. rewrite fold_left_app. cbn [fold_left].
    rewrite decodeMember_id_null. cbn [fst snd].
    pose proof (decode_keeps_id members (zeroRequest, None) Hnoid) as Hk.
    destruct (fold_left decodeMember members (zeroRequest, None))
      as [[v mth ps i] saved].
    cbn in Hk. subst i. reflexivity. }
  split; [exact Hdec|]. split.
  { unfold HandleReader. cbn [isBatch negb decodeSingle].
    rewrite Hdec. reflexivity. }
  intros req Hreq.
  assert (Hid : req_ID req = JNull).
  { cbn [decodeRequest] in Hreq. rewrite fold_left_app in Hreq.
    cbn [fold_left] in Hreq. rewrite decodeMember_id_null in Hreq.
    cbn [fst snd] in Hreq.
    destruct (snd (fold_left decodeMember members (zeroRequest, None)));
      [discriminate|].
    injection Hreq as <-. reflexivity. }
  split; [exact Hid|]. split; [exact (isSane_null_id req Hid)|].
  intros m args tuple Hs Hm Hb Hc.
  rewrite (single_as_element s _ req Hreq).
  unfold handleElement. rewrite Hreq.
  rewrite (handleRequest_notification s req m args tuple Hs Hid Hm Hb Hc).
  reflexivity.
Qed.

End RpcProperties.

(** *** Instances on the sample server *)

Import Jsonrpc RpcSamples.

Lemma sampleServer_registered : registered sampleServer.
Proof.
  apply (registered_method
           {| methods := {[ "starknet_chainId" := chainIdMethod ]} |}
           sampleServer getTransactionByHashMethod).
  - apply (registered_method NewServer _ chainIdMethod registered_new).
    reflexivity.
  - reflexivity.
Defined.

Lemma rpcErr_messages_witness :
  err_Message (rpcErr (-32601) JNull) = "Method Not Found" /\
  rpcErr 0 JNull = rpcErr (-32603) JNull.
Proof.
  destruct (rpcErr_messages JNull) as (_ & _ & Hnf & _ & _ & Hother).
  split; [rewrite Hnf; reflexivity|].
  apply Hother; discriminate.
Defined.

(** Against C7 as first stated: the server's messages differ from
    [Method not found], [Invalid params] and [Internal error] in the case
    of their letters. *)
Lemma rpcErr_messages_counterexample :
  err_Message (rpcErr (-32601) JNull) <> "Method not found" /\
  err_Message (rpcErr (-32602) JNull) <> "Invalid params" /\
  err_Message (rpcErr (-32603) JNull) <> "Internal error".
Proof. repeat split; discriminate. Qed.

(** C5. Served by the sample server, a request without an [id] for a
    method that is not registered and one whose arguments do not bind are
    answered, the first with [-32601] and the second with [-32602], each
    with a null [id], alone and inside a batch; the request for the
    unregistered method is thus not met with no bytes. *)
Theorem notification_answered_with_error :
  let unknown := call "starknet_unknown" [] in
  let unbound := call "starknet_getTransactionByHash" [("params", JArray [])] in
  (exists req, decodeRequest unknown = Ok req /\ req_ID req = JNull) /\
  (exists req, decodeRequest unbound = Ok req /\ req_ID req = JNull) /\
  HandleReader sampleServer (Document unknown)
  = Returns (Single (errorResponse JNull (rpcErr (-32601) JNull))) /\
  HandleReader sampleServer (Document unbound)
  = Returns (Single (errorResponse JNull
      (rpcErr (-32602) (JString "missing/unexpected params in list")))) /\
  HandleReader sampleServer (Document (JArray [unknown; unbound]))
  = Returns (Batch
      [errorResponse JNull (rpcErr (-32601) JNull);
       errorResponse JNull
         (rpcErr (-32602) (JString "missing/unexpected params in list"))]) /\
  HandleReader sampleServer (Document unknown) <> Returns NoBytes.
Proof.
  cbv zeta. split; [eexists; split; reflexivity|].
  split; [eexists; split; reflexivity|].
  repeat split; try (vm_compute; reflexivity).
  vm_compute. discriminate.
Qed.

Lemma notification_suppressed_witness :
  HandleReader sampleServer (Document (call "starknet_chainId" []))
  = Returns NoBytes /\
  HandleReader sampleServer
    (Document (JArray [call "starknet_chainId" [("id", JString "x")];
                       call "starknet_chainId" []]))
  = Returns (Batch [{| res_Version := "2.0";
                       res_Result := JString "0x534e5f4d41494e";
                       res_Error := None; res_ID := JString "x" |}]).
Proof.
  pose (req := {| req_Version := "2.0"; req_Method := "starknet_chainId";
                  req_Params := JNull; req_ID := JNull |}).
  destruct (notification_suppressed sampleServer
              (call "starknet_chainId" []) req chainIdMethod []
              (Value (JString "0x534e5f4d41494e"), None)
              eq_refl eq_refl eq_refl eq_refl eq_refl eq_refl)
    as (Hsingle & _ & Hbatch).
  split; [exact Hsingle|].
  pose proof (Hbatch [call "starknet_chainId" [("id", JString "x")]] [] [])
    as Hb.
  cbn [app] in Hb.
  unfold HandleReader. cbn [isBatch negb decodeBatch].
  rewrite Hb. reflexivity.
Defined.

(** The batch [[1]]: its element does not decode into a request, and the
    response carries [-32600], not [-32700]. *)
Lemma batch_element_processing_counterexample :
  (exists e, decodeRequest (JNumber "1") = Err e) /\
  exists res,
    HandleReader sampleServer (Document (JArray [JNumber "1"]))
    = Returns (Batch [res]) /\
    errorCode res = Some (-32600) /\
    errorCode res <> Some (-32700).
Proof.
  split; [eexists; reflexivity|].
  eexists. split; [vm_compute; reflexivity|].
  split; [reflexivity|discriminate].
Qed.

Lemma batch_element_processing_witness :
  handleElement sampleServer (JNumber "1")
  = Returns (Some (errorResponse JNull (rpcErr (-32600) (JString
      "json: cannot unmarshal number into Go value of type jsonrpc.request"))))
  /\
  HandleReader sampleServer (Document (JNumber "1"))
  = Returns (Single (errorResponse JNull (rpcErr (-32700) (JString
      "json: cannot unmarshal number into Go value of type jsonrpc.request"))))
  /\
  HandleReader sampleServer
    (Document (call "starknet_chainId" [("id", JNumber "1.5")]))
  = Returns (Single (errorResponse JNull (rpcErr (-32600) (JString
      "id should be a string or an integer")))).
Proof.
  split; [|split].
  - destruct (batch_element_processing sampleServer (JNumber "1"))
      as (_ & Hfail & _).
    destruct (Hfail _ eq_refl) as (He & _ & _). exact He.
  - destruct (batch_element_processing sampleServer (JNumber "1"))
      as (_ & Hfail & _).
    destruct (Hfail _ eq_refl) as (_ & _ & Hs). exact (Hs eq_refl).
  - destruct (batch_element_processing sampleServer
                (call "starknet_chainId" [("id", JNumber "1.5")]))
      as (_ & _ & Hinsane).
    destruct (Hinsane
                {| req_Version := "2.0"; req_Method := "starknet_chainId";
                   req_Params := JNull; req_ID := JNumber "1.5" |}
                ErrInvalidID eq_refl eq_refl) as (_ & _ & Hs).
    exact Hs.
Defined.

Lemma otherServer_registered : registered otherServer.
Proof.
  apply (registered_method
           {| methods := <["sample_join" := joinMethod]>
                           {[ "starknet_chainId" := chainIdMethod ]} |}
           otherServer channelMethod); [|reflexivity].
  apply (registered_method
           {| methods := {[ "starknet_chainId" := chainIdMethod ]} |}
           _ joinMethod); [|reflexivity].
  apply (registered_method NewServer _ chainIdMethod registered_new).
  reflexivity.
Defined.


Lemma null_id_as_absent_witness :
  decodeRequest (call "starknet_chainId" [("id", JNull)])
  = decodeRequest (call "starknet_chainId" []) /\
  HandleReader sampleServer
    (Document (call "starknet_chainId" [("id", JNull)]))
  = Returns NoBytes.
Proof.
  assert (Hnoid : Forall (fun kv => fieldMatches "id" (fst kv) = false)
                    [("jsonrpc", JString "2.0");
                     ("method", JString "starknet_chainId")])
    by (repeat constructor).
  destruct (null_id_as_absent sampleServer _ Hnoid) as (Hdec & _ & Hnull).
  split; [exact Hdec|].
  destruct (Hnull {| req_Version := "2.0"; req_Method := "starknet_chainId";
                     req_Params := JNull; req_ID := JNull |} eq_refl)
    as (_ & _ & Hquiet).
  exact (Hquiet chainIdMethod [] (Value (JString "0x534e5f4d41494e"), None)
           eq_refl eq_refl eq_refl eq_refl).
Defined.

(* ================================================================== *)
(** ** Further properties of package [core] *)
(* ================================================================== *)

Section MoreCoreProperties.

Variable Pedersen : felt -> felt -> felt.

Notation "'P*' xs" := (PedersenArray Pedersen xs)
  (at level 10, xs at level 9, only parsing).

(** *** The remaining hash recipes *)

(** X1. An Invoke transaction of version 0 hashes to its declared hash and
    is never reported; of version 1 it hashes to
    [P*("invoke", 1, senderAddress, 0, P*(callData...), maxFee, C, nonce)],
    in which neither the contract address, the entry point selector nor the
    signature takes part. *)
Theorem invoke_hash (i : InvokeTransaction) (n : Network) :
  (inv_Version i = 0 ->
     transactionHash Pedersen (TxInvoke i) n = Ok (inv_TransactionHash i) /\
     verifyTransactionHash Pedersen (TxInvoke i) n = None) /\
  (inv_Version i = 1 ->
     transactionHash Pedersen (TxInvoke i) n
     = Ok (P* [SetBytes "invoke"; 1; inv_SenderAddress i; 0;
               P* (inv_CallData i); inv_MaxFee i; ChainID n; inv_Nonce i])).
Proof.
  split.
  - intros Hv.
    assert (Hh : transactionHash Pedersen (TxInvoke i) n
                 = Ok (inv_TransactionHash i)).
    { cbn [transactionHash]. unfold invokeTransactionHash.
      rewrite Hv. reflexivity. }
    split; [exact Hh|].
    unfold verifyTransactionHash. rewrite Hh. cbn [Hash].
    unfold Equal. rewrite Z.eqb_refl. reflexivity.
  - intros Hv. cbn [transactionHash]. unfold invokeTransactionHash.
    rewrite Hv. reflexivity.
Qed.

(** X2. A Declare transaction of version 0 hashes to its declared hash and
    is never reported; of version 1 it hashes to
    [P*("declare", 1, senderAddress, 0, P*(classHash), maxFee, C, nonce)],
    without the compiled class hash. *)
Theorem declare_v0_v1_hash (d : DeclareTransaction) (n : Network) :
  (decl_Version d = 0 ->
     transactionHash Pedersen (TxDeclare d) n = Ok (decl_TransactionHash d) /\
     verifyTransactionHash Pedersen (TxDeclare d) n = None) /\
  (decl_Version d = 1 ->
     transactionHash Pedersen (TxDeclare d) n
     = Ok (P* [SetBytes "declare"; 1; decl_SenderAddress d; 0;
               P* [decl_ClassHash d]; decl_MaxFee d; ChainID n;
               decl_Nonce d])).
Proof.
  split.
  - intros Hv.
    assert (Hh : transactionHash Pedersen (TxDeclare d) n
                 = Ok (decl_TransactionHash d)).
    { cbn [transactionHash]. unfold declareTransactionHash.
      rewrite Hv. reflexivity. }
    split; [exact Hh|].
    unfold verifyTransactionHash. rewrite Hh. cbn [Hash].
    unfold Equal. rewrite Z.eqb_refl. reflexivity.
  - intros Hv. cbn [transactionHash]. unfold declareTransactionHash.
    rewrite Hv. reflexivity.
Qed.

(** X3. A DeployAccount transaction of version 1 hashes to
    [P*("deploy_account", 1, contractAddress, 0, P*(classHash, salt,
    constructorCallData...), maxFee, C, nonce)]; every other version,
    version 0 included, is refused. *)
Theorem deploy_account_hash (d : DeployAccountTransaction) (n : Network) :
  let dt := da_DeployTransaction d in
  (dep_Version dt = 1 ->
     transactionHash Pedersen (TxDeployAccount d) n
     = Ok (P* [SetBytes "deploy_account"; 1; dep_ContractAddress dt; 0;
               P* (dep_ClassHash dt :: dep_ContractAddressSalt dt
                   :: dep_ConstructorCallData dt);
               da_MaxFee d; ChainID n; da_Nonce d])) /\
  (dep_Version dt <> 1 ->
     transactionHash Pedersen (TxDeployAccount d) n
     = Err (InvalidTransactionVersion (TxDeployAccount d) (dep_Version dt))).
Proof.
  cbv zeta. split; intros Hv; cbn [transactionHash];
    unfold deployAccountTransactionHash.
  - rewrite Hv. reflexivity.
  - unfold IsOne.
    destruct (Z.eqb_spec (dep_Version (da_DeployTransaction d)) 1);
      [contradiction|reflexivity].
Qed.

(** X4. [transactionHash] fails exactly for the versions a variant has no
    arm for, and the error then names the transaction and its version; a
    Deploy transaction is accepted with any version. *)
Theorem transactionHash_fails_iff (tx : Transaction) (n : Network) :
  (supportedVersion tx = false <->
   exists err, transactionHash Pedersen tx n = Err err) /\
  (forall err, transactionHash Pedersen tx n = Err err ->
     err = InvalidTransactionVersion tx (versionOf tx)).
Proof.
  destruct tx as [d|i|d|l|d]; cbn [transactionHash supportedVersion versionOf].
  - unfold declareTransactionHash, IsZero, IsOne, Equal, SetUint64.
    change (2 mod P) with 2.
    destruct (decl_Version d =? 0), (decl_Version d =? 1),
      (decl_Version d =? 2); cbn; split;
      try (split; [discriminate|intros [e He]; discriminate He]);
      try (split; [intros _; eexists; reflexivity|reflexivity]);
      intros err He; try discriminate He; injection He as <-; reflexivity.
  - unfold invokeTransactionHash, IsZero, IsOne.
    destruct (inv_Version i =? 0), (inv_Version i =? 1); cbn; split;
      try (split; [discriminate|intros [e He]; discriminate He]);
      try (split; [intros _; eexists; reflexivity|reflexivity]);
      intros err He; try discriminate He; injection He as <-; reflexivity.
  - split; [split; [discriminate|intros [e He]; discriminate He]|].
    intros err He. discriminate He.
  - unfold l1HandlerTransactionHash, IsZero.
    destruct (l1_Version l =? 0), (l1_Nonce l); cbn; split;
      try (split; [discriminate|intros [e He]; discriminate He]);
      try (split; [intros _; eexists; reflexivity|reflexivity]);
      intros err He; try discriminate He; injection He as <-; reflexivity.
  - unfold deployAccountTransactionHash, IsOne.
    destruct (dep_Version (da_DeployTransaction d) =? 1); cbn; split;
      try (split; [discriminate|intros [e He]; discriminate He]);
      try (split; [intros _; eexists; reflexivity|reflexivity]);
      intros err He; try discriminate He; injection He as <-; reflexivity.
Qed.

(** *** What verification lets through *)

Lemma trusted_not_reported (n : Network) (tx : Transaction) :
  trusted tx = true -> verifyTransactionHash Pedersen tx n = None.
Proof.
  intros Ht. unfold verifyTransactionHash.
  assert (Hh : transactionHash Pedersen tx n = Ok (Hash tx)).
  { destruct tx as [d|i|d|l|d]; cbn [trusted] in Ht;
      cbn [transactionHash Hash].
    - unfold declareTransactionHash, IsZero. rewrite Ht. reflexivity.
    - unfold invokeTransactionHash, IsZero. rewrite Ht. reflexivity.
    - reflexivity.
    - unfold l1HandlerTransactionHash, IsZero.
      apply andb_prop in Ht as [-> Hn].
      destruct (l1_Nonce l); [discriminate|reflexivity].
    - discriminate. }
  rewrite Hh. unfold Equal. rewrite Z.eqb_refl. reflexivity.
Qed.

(** X5. A list made only of Deploy transactions, Invoke and Declare
    transactions of version 0 and L1Handler transactions of version 0
    without a nonce passes [verifyTransactions], whatever hashes the
    transactions declare. *)
Theorem trusted_block_verifies (txs : list Transaction) (n : Network)
  (Htrusted : forall tx, In tx txs -> trusted tx = true) :
  verifyTransactions Pedersen txs n = None.
Proof.
  unfold verifyTransactions.
  induction txs as [|tx txs IH]; [reflexivity|].
  cbn [fold_left]. unfold verifyStep at 2.
  rewrite (trusted_not_reported n tx (Htrusted tx (or_introl eq_refl))).
  apply IH. intros tx' Hin. apply Htrusted. right. exact Hin.
Qed.

(** *** The diagnostic chain *)

Lemma failureOf_entry (n : Network) (tx t : Transaction) f :
  failureOf Pedersen n tx = Some (t, f) ->
  t = tx /\
  match f with
  | Some err => transactionHash Pedersen tx n = Err err
  | None => exists h, transactionHash Pedersen tx n = Ok h /\ h <> Hash tx
  end.
Proof.
  unfold failureOf, verifyTransactionHash.
  destruct (transactionHash Pedersen tx n) as [h|err].
  - unfold Equal. destruct (Z.eqb_spec h (Hash tx)) as [|Hne]; cbn;
      [discriminate|].
    intros [= <- <-]. split; [reflexivity|]. exists h. split; auto.
  - cbn. intros [= <- <-]. split; reflexivity.
Qed.

(** X6. Every node of the chain that [verifyTransactions] returns is about
    a transaction of the list; it carries the hashing error when hashing
    that transaction failed, and no error when the hash was recomputed and
    differs from the declared one. *)
Theorem chain_entries (txs : list Transaction) (n : Network)
  (t : Transaction) (f : option hashError)
  (Hin : In (t, f) (chainOf (verifyTransactions Pedersen txs n))) :
  In t txs /\
  match f with
  | Some err => transactionHash Pedersen t n = Err err
  | None => exists h, transactionHash Pedersen t n = Ok h /\ h <> Hash t
  end.
Proof.
  unfold verifyTransactions in Hin. rewrite verifyLoop_chain in Hin.
  cbn [chainOf] in Hin. rewrite app_nil_r in Hin.
  apply in_rev in Hin. apply list_elem_of_In in Hin.
  apply list_elem_of_omap in Hin as (tx & Htx & Hf).
  apply list_elem_of_In in Htx.
  destruct (failureOf_entry n tx t f Hf) as [-> Hkind].
  split; assumption.
Qed.

(** X7. Verifying a list that is the concatenation of two gives the chain
    of the second part followed by the chain of the first. *)
Theorem verifyTransactions_app (txs1 txs2 : list Transaction) (n : Network) :
  chainOf (verifyTransactions Pedersen (txs1 ++ txs2) n)
  = chainOf (verifyTransactions Pedersen txs2 n)
    ++ chainOf (verifyTransactions Pedersen txs1 n).
Proof.
  unfold verifyTransactions. rewrite !verifyLoop_chain. cbn [chainOf].
  rewrite !app_nil_r, omap_app, rev_app_distr. reflexivity.
Qed.

Lemma mismatches_setSignature (n : Network) (sig : list felt)
  (tx : Transaction) :
  mismatches Pedersen n (setSignature sig tx) = mismatches Pedersen n tx.
Proof.
  unfold mismatches.
  destruct tx as [d|i|d|l|d]; cbn [setSignature transactionHash Hash];
    try reflexivity.
  - unfold declareTransactionHash; cbn.
    destruct (IsZero _); [reflexivity|].
    destruct (IsOne _); [reflexivity|].
    destruct (Equal _ _); reflexivity.
  - unfold invokeTransactionHash; cbn.
    destruct (IsZero _); [reflexivity|].
    destruct (IsOne _); reflexivity.
  - unfold deployAccountTransactionHash; cbn.
    destruct (IsOne _); reflexivity.
Qed.

(** X8. Verification never looks at signatures: replacing the signature of
    a transaction does not change whether it is reported, and replacing the
    signatures throughout a list leaves the length of the chain as it
    was. *)
Theorem verification_ignores_signatures (txs : list Transaction)
  (n : Network) (sig : list felt) :
  (forall tx, mismatches Pedersen n (setSignature sig tx)
              = mismatches Pedersen n tx) /\
  List.length (chainOf (verifyTransactions Pedersen
                          (map (setSignature sig) txs) n))
  = List.length (chainOf (verifyTransactions Pedersen txs n)).
Proof.
  split; [intros tx; apply mismatches_setSignature|].
  rewrite <- !(length_map fst), !chain_transactions, !length_rev.
  induction txs as [|tx txs IH]; [reflexivity|].
  cbn [map List.filter]. rewrite mismatches_setSignature.
  destruct (mismatches Pedersen n tx); cbn [List.length]; rewrite IH;
    reflexivity.
Qed.

(** *** Commitments *)

Section MoreCommitmentProperties.
Context {T E : Type} `{TrieOps T E}.

Lemma putAll_app (l1 l2 : list (felt * felt)) (trie : T) :
  putAll (l1 ++ l2) trie
  = match putAll l1 trie with
    | Ok trie' => putAll l2 trie'
    | Err err => Err err
    end.
Proof.
  revert trie. induction l1 as [|[k v] l1 IH]; intros trie; [reflexivity|].
  cbn [app putAll]. destruct (Put trie k v); [apply IH|reflexivity].
Qed.

Lemma commitmentLoop_same (txs txs' : list Transaction) :
  Forall2 sameCommitmentInput txs txs' ->
  forall (i : nat) (trie : T),
    commitmentLoop Pedersen i txs trie = commitmentLoop Pedersen i txs' trie.
Proof.
  induction 1 as [|t t' txs txs' [Hh Hs] _ IH]; intros i trie;
    [reflexivity|].
  cbn [commitmentLoop]. rewrite !signatureHash_spec, Hh.
  assert (Hsig : spec_signatureHash Pedersen t = spec_signatureHash Pedersen t').
  { destruct t, t'; cbn in Hs |- *; try reflexivity; try contradiction.
    rewrite Hs. reflexivity. }
  rewrite Hsig. destruct (Put trie _ _); [apply IH|reflexivity].
Qed.

(** X9. The transaction commitment depends on nothing but the declared
    hashes and the signatures of the Invoke transactions: two lists that
    agree on these, position by position, have the same commitment,
    whatever their other fields, and whatever the signatures of their
    Declare and DeployAccount transactions. *)
Theorem commitment_inputs (txs txs' : list Transaction)
  (Hsame : Forall2 sameCommitmentInput txs txs') :
  transactionCommitment Pedersen (T := T) txs
  = transactionCommitment Pedersen (T := T) txs'.
Proof.
  unfold transactionCommitment, RunOnTempTrie, commitmentBody.
  rewrite (commitmentLoop_same txs txs' Hsame). reflexivity.
Qed.

Lemma eventLoop_entries (c : nat) (events : list Event) (trie : T) :
  Z.of_nat (c + List.length events) < 2 ^ 64 ->
  eventLoop Pedersen (Z.of_nat c) events trie
  = match putAll (imap (fun j ev => (SetUint64 (Z.of_nat (c + j)),
                                     eventHash Pedersen ev)) events) trie with
    | Ok trie' => Ok (Z.of_nat (c + List.length events), trie')
    | Err err => Err err
    end.
Proof.
  revert c trie. induction events as [|ev events IH]; intros c trie Hlen.
  - cbn. rewrite Nat.add_0_r. reflexivity.
  - cbn [List.length] in Hlen. cbn [eventLoop imap putAll].
    rewrite Nat.add_0_r.
    destruct (Put trie _ _) as [trie'|err]; [|reflexivity].
    replace ((Z.of_nat c + 1) mod 2 ^ 64) with (Z.of_nat (S c))
      by (rewrite Z.mod_small; lia).
    rewrite IH by lia.
    rewrite (imap_ext (_ ∘ S)
               (fun j ev => (SetUint64 (Z.of_nat (S c + j)),
                             eventHash Pedersen ev)) events).
    + cbn [List.length]. replace (S c + List.length events)%nat
        with (c + S (List.length events))%nat by lia. reflexivity.
    + intros j ev' _. cbn. repeat f_equal. lia.
Qed.

Lemma receiptLoop_entries (c : nat) (receipts : list TransactionReceipt)
  (trie : T) :
  Z.of_nat (c + List.length (allEvents receipts)) < 2 ^ 64 ->
  receiptLoop Pedersen (Z.of_nat c) receipts trie
  = match putAll (imap (fun j ev => (SetUint64 (Z.of_nat (c + j)),
                                     eventHash Pedersen ev))
                       (allEvents receipts)) trie with
    | Ok trie' =>
        Ok (Z.of_nat (c + List.length (allEvents receipts)), trie')
    | Err err => Err err
    end.
Proof.
  revert c trie. induction receipts as [|r receipts IH]; intros c trie Hlen.
  - cbn. rewrite Nat.add_0_r. reflexivity.
  - unfold allEvents in Hlen |- *. cbn [map concat] in Hlen |- *.
    rewrite length_app in Hlen.
    cbn [receiptLoop]. rewrite eventLoop_entries by lia.
    rewrite imap_app, putAll_app.
    destruct (putAll (imap _ (rc_Events r)) trie) as [trie'|err];
      [|reflexivity].
    fold (allEvents receipts) in Hlen |- *.
    rewrite IH by lia.
    rewrite (imap_ext _ (fun j ev =>
               (SetUint64 (Z.of_nat (c + (List.length (rc_Events r) + j))),
                eventHash Pedersen ev)) (allEvents receipts)).
    + rewrite length_app, Nat.add_assoc. reflexivity.
    + intros j ev' _. do 2 f_equal. lia.
Qed.

(** X10. [eventCommitment] numbers the events of all receipts in order
    from 0 and inserts, for the event with number [i], the key
    [fromUint64(i)] with the value [P*(from, P*(keys...), P*(data...))];
    the grouping of the events into receipts plays no part, nor does a
    receipt without events. *)
Theorem event_commitment_entries (receipts : list TransactionReceipt)
  (Hlen : Z.of_nat (List.length (allEvents receipts)) < 2 ^ 64) :
  eventCommitment Pedersen (T := T) receipts
  = commitEntries
      (imap (fun i ev =>
               (SetUint64 (Z.of_nat i),
                PedersenArray Pedersen
                  [ev_From ev; PedersenArray Pedersen (ev_Keys ev);
                   PedersenArray Pedersen (ev_Data ev)]))
            (allEvents receipts)) /\
  (forall receipts',
     allEvents receipts' = allEvents receipts ->
     eventCommitment Pedersen (T := T) receipts'
     = eventCommitment Pedersen (T := T) receipts).
Proof.
  assert (Hentries : forall rs,
            Z.of_nat (List.length (allEvents rs)) < 2 ^ 64 ->
            eventCommitment Pedersen (T := T) rs
            = commitEntries
                (imap (fun i ev => (SetUint64 (Z.of_nat i),
                                    eventHash Pedersen ev))
                      (allEvents rs))).
  { intros rs Hrs.
    unfold eventCommitment, RunOnTempTrie, eventCommitmentBody, commitEntries.
    rewrite (receiptLoop_entries 0 rs _) by (cbn [Nat.add]; exact Hrs).
    cbn [Nat.add].
    destruct (putAll _ _); reflexivity. }
  split; [exact (Hentries receipts Hlen)|].
  intros receipts' Heq.
  rewrite (Hentries receipts Hlen), Hentries, Heq by (rewrite Heq; exact Hlen).
  reflexivity.
Qed.

End MoreCommitmentProperties.

End MoreCoreProperties.

(** *** Instances on the sample data *)

Import Samples MoreSamples.

Lemma invoke_hash_witness :
  verifyTransactionHash mixHash (TxInvoke invokeV0) MAINNET = None /\
  transactionHash mixHash (TxInvoke invokeV1) GOERLI
  = Ok (PedersenArray mixHash
          [SetBytes "invoke"; 1; 9; 0; PedersenArray mixHash [1; 2]; 3;
           SetBytes "SN_GOERLI"; 4]).
Proof.
  split.
  - destruct (invoke_hash mixHash invokeV0 MAINNET) as [Hv0 _].
    destruct (Hv0 eq_refl) as [_ Hv]. exact Hv.
  - destruct (invoke_hash mixHash invokeV1 GOERLI) as [_ Hv1].
    exact (Hv1 eq_refl).
Defined.

Lemma declare_v0_v1_hash_witness :
  verifyTransactionHash mixHash (TxDeclare declareV0) MAINNET = None /\
  transactionHash mixHash (TxDeclare declareV1) MAINNET
  = Ok (PedersenArray mixHash
          [SetBytes "declare"; 1; 1; 0; PedersenArray mixHash [2]; 3;
           SetBytes "SN_MAIN"; 4]).
Proof.
  split.
  - destruct (declare_v0_v1_hash mixHash declareV0 MAINNET) as [Hv0 _].
    destruct (Hv0 eq_refl) as [_ Hv]. exact Hv.
  - destruct (declare_v0_v1_hash mixHash declareV1 MAINNET) as [_ Hv1].
    exact (Hv1 eq_refl).
Defined.

Lemma deploy_account_hash_witness :
  transactionHash mixHash (TxDeployAccount (sampleDeployAccount 1)) MAINNET
  = Ok (PedersenArray mixHash
          [SetBytes "deploy_account"; 1; 32; 0;
           PedersenArray mixHash [33; 31; 34; 35]; 36; SetBytes "SN_MAIN";
           38]) /\
  transactionHash mixHash (TxDeployAccount (sampleDeployAccount 0)) MAINNET
  = Err (InvalidTransactionVersion (TxDeployAccount (sampleDeployAccount 0)) 0).
Proof.
  split.
  - destruct (deploy_account_hash mixHash (sampleDeployAccount 1) MAINNET)
      as [Hv1 _].
    exact (Hv1 eq_refl).
  - destruct (deploy_account_hash mixHash (sampleDeployAccount 0) MAINNET)
      as [_ Hbad].
    assert (Hne : dep_Version (da_DeployTransaction (sampleDeployAccount 0))
                  <> 1) by discriminate.
    exact (Hbad Hne).
Defined.

Lemma transactionHash_fails_iff_witness :
  (exists err, transactionHash mixHash (TxInvoke
     {| inv_TransactionHash := 5; inv_CallData := []; 
        inv_TransactionSignature := []; inv_MaxFee := 0;
        inv_ContractAddress := 0; inv_Version := 3;
        inv_EntryPointSelector := 0; inv_Nonce := 0;
        inv_SenderAddress := 0 |}) MAINNET = Err err) /\
  forall err,
    transactionHash mixHash (TxL1Handler l1Version1) MAINNET = Err err ->
    err = InvalidTransactionVersion (TxL1Handler l1Version1) 1.
Proof.
  split.
  - destruct (transactionHash_fails_iff mixHash (TxInvoke
      {| inv_TransactionHash := 5; inv_CallData := []; 
         inv_TransactionSignature := []; inv_MaxFee := 0;
         inv_ContractAddress := 0; inv_Version := 3;
         inv_EntryPointSelector := 0; inv_Nonce := 0;
         inv_SenderAddress := 0 |}) MAINNET) as [[Hfail _] _].
    exact (Hfail eq_refl).
  - destruct (transactionHash_fails_iff mixHash (TxL1Handler l1Version1)
                MAINNET) as [_ Herr].
    exact Herr.
Defined.

Lemma trusted_block_verifies_witness :
  verifyTransactions mixHash
    [TxL1Handler l1NoNonce; TxInvoke invokeV0; TxDeploy (sampleDeploy 7);
     TxDeclare declareV0] MAINNET = None.
Proof.
  apply trusted_block_verifies.
  intros tx [<-|[<-|[<-|[<-|[]]]]]; reflexivity.
Defined.

Lemma chain_entries_witness :
  In (TxDeclare s2Declare) sampleBlock /\
  exists h, transactionHash mixHash (TxDeclare s2Declare) MAINNET = Ok h /\
            h <> Hash (TxDeclare s2Declare).
Proof.
  assert (Hin : In (TxDeclare s2Declare, None)
                   (chainOf (verifyTransactions mixHash sampleBlock MAINNET)))
    by (vm_compute; right; left; reflexivity).
  exact (chain_entries mixHash sampleBlock MAINNET (TxDeclare s2Declare) None
           Hin).
Defined.

Lemma commitment_inputs_witness :
  transactionCommitment mixHash (T := recordingTrie)
    [TxDeclare s2Declare; TxInvoke invokeV0]
  = transactionCommitment mixHash (T := recordingTrie)
      [setSignature [] (TxDeclare s2Declare); TxInvoke invokeV0].
Proof.
  apply commitment_inputs.
  constructor; [split; [reflexivity|exact I]|].
  constructor; [split; reflexivity|constructor].
Defined.

Lemma event_commitment_entries_witness :
  eventCommitment mixHash (T := recordingTrie)
    [sampleReceipt [sampleEvent 1]; sampleReceipt [];
     sampleReceipt [sampleEvent 2; sampleEvent 3]]
  = eventCommitment mixHash (T := recordingTrie)
      [sampleReceipt [sampleEvent 1; sampleEvent 2; sampleEvent 3]] /\
  receiptLoop mixHash (T := recordingTrie) 0
    [sampleReceipt [sampleEvent 1]; sampleReceipt [];
     sampleReceipt [sampleEvent 2; sampleEvent 3]] []
  = Ok (3, [(0, eventHash mixHash (sampleEvent 1));
            (1, eventHash mixHash (sampleEvent 2));
            (2, eventHash mixHash (sampleEvent 3))]).
Proof.
  assert (Hlen : Z.of_nat (List.length (allEvents
                   [sampleReceipt [sampleEvent 1; sampleEvent 2;
                                   sampleEvent 3]])) < 2 ^ 64)
    by (vm_compute; reflexivity).
  destruct (event_commitment_entries mixHash (T := recordingTrie) _ Hlen)
    as [_ Hsame].
  split; [apply Hsame; reflexivity|reflexivity].
Defined.

(* ================================================================== *)
(** ** Further properties of package [jsonrpc] *)
(* ================================================================== *)

Section MoreRpcProperties.
Import Jsonrpc.

(** *** The sanity check *)

(** X11. [isSane] accepts a request exactly when its version is [2.0], its
    method is not empty, its params are absent, an array or an object, and
    its id is absent, a string or a number written without a point; it
    answers with [ErrInvalidID] exactly when only the id is at fault. *)
Theorem isSane_accepts (r : request) :
  (isSane r = None <->
   req_Version r = "2.0" /\ req_Method r <> "" /\
   validParams (req_Params r) = true /\ validID (req_ID r) = true) /\
  (isSane r = Some ErrInvalidID <->
   req_Version r = "2.0" /\ req_Method r <> "" /\
   validParams (req_Params r) = true /\ validID (req_ID r) = false).
Proof.
  unfold isSane.
  destruct (String.eqb_spec (req_Version r) "2.0") as [Hv|Hv]; cbn [negb];
    [|split; split; [discriminate|tauto|discriminate|tauto]].
  destruct (String.eqb_spec (req_Method r) "") as [Hm|Hm];
    [split; split; [discriminate|tauto|discriminate|tauto]|].
  destruct (req_Params r); cbn [validParams];
    try (split; split; [discriminate|intros (_ & _ & Hp & _); discriminate Hp
                       |discriminate|intros (_ & _ & Hp & _); discriminate Hp]).
  all: destruct (req_ID r) as [|b|num|str|idl|idm]; cbn [validID];
    try destruct (Contains num "."); cbn [negb];
    split; split; try discriminate; try tauto;
    try (intros (_ & _ & _ & Hi); discriminate Hi);
    intros _; repeat split; assumption.
Qed.

Lemma isSane_invalid_id (r : request) :
  req_Version r = "2.0" -> req_Method r <> "" ->
  validParams (req_Params r) = true -> validID (req_ID r) = false ->
  isSane r = Some ErrInvalidID.
Proof.
  intros Hv Hm Hp Hi. unfold isSane. rewrite Hv. cbn [String.eqb negb].
  change (String.eqb "2.0" "2.0") with true. cbn [negb].
  destruct (String.eqb_spec (req_Method r) ""); [contradiction|].
  destruct (req_Params r); try discriminate Hp;
    destruct (req_ID r) as [|b|num|str|idl|idm]; cbn [validID] in Hi;
    try discriminate Hi; try reflexivity;
    (destruct (Contains num "."); [reflexivity|discriminate Hi]).
Qed.

Lemma isSane_params (r : request) :
  isSane r = None -> validParams (req_Params r) = true.
Proof.
  unfold isSane. destruct (negb _); [discriminate|].
  destruct (String.eqb _ _); [discriminate|].
  destruct (req_Params r); try discriminate; reflexivity.
Qed.

(** X12. A request whose id is not acceptable is answered with [-32600]
    and a null id when the id is its only fault; when its version is not
    [2.0] the version is reported instead and the response carries the
    request's id as it came. *)
Theorem invalid_id_handling (s : Server) (d : json) (req : request)
  (Hdecode : decodeRequest d = Ok req)
  (Hid : validID (req_ID req) = false) :
  (req_Version req = "2.0" -> req_Method req <> "" ->
   validParams (req_Params req) = true ->
   HandleReader s (Document d)
   = Returns (Single (errorResponse JNull
       (rpcErr (-32600) (JString "id should be a string or an integer"))))) /\
  (req_Version req <> "2.0" ->
   HandleReader s (Document d)
   = Returns (Single (errorResponse (req_ID req)
       (rpcErr (-32600) (JString "unsupported RPC request version"))))).
Proof.
  split.
  - intros Hv Hm Hp.
    pose proof (isSane_invalid_id req Hv Hm Hp Hid) as Hs.
    rewrite (single_as_element s d req Hdecode).
    unfold handleElement. rewrite Hdecode.
    rewrite (handleRequest_sane_error s req _ Hs). reflexivity.
  - intros Hv.
    assert (Hs : isSane req
                 = Some (errorsNew "unsupported RPC request version")).
    { unfold isSane.
      destruct (String.eqb_spec (req_Version req) "2.0");
        [contradiction|reflexivity]. }
    rewrite (single_as_element s d req Hdecode).
    unfold handleElement. rewrite Hdecode.
    rewrite (handleRequest_sane_error s req _ Hs). reflexivity.
Qed.

(** *** Responses *)

(** X13. A sane request for a method that is not registered is answered
    with [-32601] and the request's own id, sent alone or in a batch. *)
Theorem unknown_method_response (s : Server) (d : json) (req : request)
  (Hdecode : decodeRequest d = Ok req)
  (Hsane : isSane req = None)
  (Hunknown : methods s !! req_Method req = None) :
  let res := errorResponse (req_ID req) (rpcErr (-32601) JNull) in
  HandleReader s (Document d) = Returns (Single res) /\
  handleElement s d = Returns (Some res).
Proof.
  assert (He : handleElement s d
               = Returns (Some (errorResponse (req_ID req)
                                  (rpcErr (-32601) JNull)))).
  { unfold handleElement, handleRequest. rewrite Hdecode, Hsane, Hunknown.
    reflexivity. }
  cbv zeta. split; [|exact He].
  rewrite (single_as_element s d req Hdecode), He. reflexivity.
Qed.

(** X14. Whatever [handleRequest] answers carries version [2.0] and the
    id of the request; an answer with a result has no error, an answer
    with an error has no result, and an answer without an id is always an
    error, since a call that succeeded for a request without id gets no
    answer. *)
Theorem response_shape (s : Server) (req : request) (r : response)
  (Hres : handleRequest s req = Returns (Ok (Some r))) :
  res_Version r = "2.0" /\
  res_ID r = req_ID req /\
  (res_Error r <> None -> res_Result r = JNull) /\
  (res_ID r = JNull -> res_Error r <> None).
Proof.
  unfold handleRequest in Hres.
  destruct (isSane req); [discriminate|].
  destruct (methods s !! req_Method req) as [m|];
    [|injection Hres as <-; cbn; repeat split; congruence].
  destruct (buildArguments _ _ _) as [[args|err]|]; cbn in Hres;
    [| injection Hres as <-; cbn; repeat split; congruence
     | discriminate].
  destruct (Call _ _) as [[result [e|]]|]; cbn in Hres; [| |discriminate];
    destruct (req_ID req) eqn:Hid; try discriminate;
    injection Hres as <-; cbn; repeat split; congruence.
Qed.

(** *** Registration *)

Lemma RegisterMethod_inv (s s' : Server) (method : Method) :
  RegisterMethod s method = Ok s' ->
  validHandler method /\
  s' = {| methods := <[m_Name method := method]> (methods s) |}.
Proof.
  unfold RegisterMethod, validHandler.
  destruct (m_Handler method) as [|f]; [discriminate|].
  destruct (Nat.eqb_spec (List.length (fn_In f))
                         (List.length (m_Params method))) as [Hl|];
    [|discriminate].
  destruct (Nat.eqb_spec (fn_NumOut f) 2) as [Ho|]; [|discriminate].
  destruct (fn_Out1IsError f) eqn:He; [|discriminate].
  cbn [negb]. intros [= <-]. split; [|reflexivity].
  exists f. repeat split; assumption.
Qed.

(** X15. [RegisterMethod] succeeds exactly for a handler that is a
    function with as many parameters as the method declares and two
    results of which the second is an error pointer; the method is then
    found under its name, a method registered before under that name is
    replaced, and the other names are as before. *)
Theorem RegisterMethod_spec (s : Server) (method : Method) :
  ((exists s', RegisterMethod s method = Ok s') <-> validHandler method) /\
  (forall s', RegisterMethod s method = Ok s' ->
     methods s' !! m_Name method = Some method /\
     forall name, name <> m_Name method ->
       methods s' !! name = methods s !! name).
Proof.
  split.
  - split.
    + intros [s' Hs]. exact (proj1 (RegisterMethod_inv s s' method Hs)).
    + intros (f & Hf & Hl & Ho & He). unfold RegisterMethod.
      rewrite Hf, Hl, Ho, He, Nat.eqb_refl. cbn. eexists. reflexivity.
  - intros s' Hs. destruct (RegisterMethod_inv s s' method Hs) as [_ ->].
    cbn [methods]. split.
    + apply lookup_insert_eq.
    + intros name Hne. apply lookup_insert_ne. congruence.
Qed.

(** X16. In a server built from [NewServer] by successful registrations,
    every method is found under its own name and has a handler that is a
    function with as many parameters as the method declares and two
    results, the second an error pointer. *)
Theorem registered_methods_valid (s : Server) (Hreg : registered s)
  (name : string) (m : Method) (Hm : methods s !! name = Some m) :
  m_Name m = name /\ validHandler m.
Proof.
  revert name m Hm.
  induction Hreg as [|s s' method Hreg IH Hstep]; intros name m Hm.
  - cbn in Hm. rewrite lookup_empty in Hm. discriminate.
  - destruct (RegisterMethod_inv s s' method Hstep) as [Hvalid ->].
    cbn [methods] in Hm.
    destruct (decide (m_Name method = name)) as [Heq|Hne].
    + subst name. rewrite lookup_insert_eq in Hm. injection Hm as <-.
      split; [reflexivity|exact Hvalid].
    + rewrite lookup_insert_ne in Hm by exact Hne. exact (IH name m Hm).
Qed.

(** *** The first byte *)

(** X17. [isBatch] answers true exactly when the input is any number of
    spaces, tabs, carriage returns and line feeds followed by an opening
    bracket; on an input that is empty or all white space it answers
    false. *)
Theorem isBatchBytes_spec (reader : list Ascii.ascii) :
  isBatchBytes reader = true <->
  exists ws rest,
    reader = ws ++ Ascii.ascii_of_nat 91 :: rest /\
    Forall (fun c => isSpaceByte c = true) ws.
Proof.
  induction reader as [|c reader IH]; cbn [isBatchBytes].
  - split; [discriminate|].
    intros (ws & rest & Heq & _). destruct ws; discriminate Heq.
  - destruct (isSpaceByte c) eqn:Hc.
    + rewrite IH. split.
      * intros (ws & rest & -> & Hws). exists (c :: ws), rest.
        split; [reflexivity|constructor; assumption].
      * intros (ws & rest & Heq & Hws). destruct ws as [|w ws].
        -- cbn in Heq. injection Heq as -> _. discriminate Hc.
        -- cbn in Heq. injection Heq as -> ->. exists ws, rest.
           split; [reflexivity|]. inversion Hws; assumption.
    + split.
      * intros Hb. apply Ascii.eqb_eq in Hb. subst c.
        exists [], reader. split; [reflexivity|constructor].
      * intros (ws & rest & Heq & Hws). destruct ws as [|w ws].
        -- cbn in Heq. injection Heq as -> _. reflexivity.
        -- cbn in Heq. injection Heq as -> _.
           inversion Hws as [|? ? Hw _]. congruence.
Qed.

(** *** Binding arguments *)

Lemma In_in_range (f : Func) (i : nat) :
  (i < List.length (fn_In f))%nat ->
  exists t, In_ (HFunc f) i = Returns t.
Proof.
  intros Hi. cbn [In_].
  destruct (lookup_lt_is_Some_2 (fn_In f) i Hi) as [t ->].
  exists t. reflexivity.
Qed.

Lemma bindList_returns (f : Func) (paramsList : list json) :
  forall (i : nat) (args : list json),
    (i + List.length paramsList <= List.length (fn_In f))%nat ->
    exists r, bindList (HFunc f) i paramsList args = Returns r /\
              forall out, r = Ok out ->
                List.length out
                = (List.length args + List.length paramsList)%nat.
Proof.
  induction paramsList as [|param rest IH]; intros i args Hlen.
  - exists (Ok args). split; [reflexivity|].
    intros out [= <-]. cbn. lia.
  - cbn [List.length] in Hlen. cbn [bindList].
    destruct (In_in_range f i ltac:(lia)) as [t ->]. cbn [mbind outcome_bind].
    destruct (handlerParamValue param t) as [v|err].
    + destruct (IH (S i) (args ++ [v]) ltac:(lia)) as (r & -> & Hr).
      exists r. split; [reflexivity|]. intros out Hout.
      rewrite (Hr out Hout), length_app. cbn. lia.
    + exists (Err err). split; [reflexivity|discriminate].
Qed.

Lemma bindMap_returns (f : Func) (paramsMap : list (string * json))
  (configuredParams : list MethodParameter) :
  forall (i : nat) (args : list json),
    (i + List.length configuredParams <= List.length (fn_In f))%nat ->
    exists r,
      bindMap (HFunc f) paramsMap i configuredParams args = Returns r /\
      forall out, r = Ok out ->
        List.length out
        = (List.length args + List.length configuredParams)%nat.
Proof.
  induction configuredParams as [|cp rest IH]; intros i args Hlen.
  - exists (Ok args). split; [reflexivity|].
    intros out [= <-]. cbn. lia.
  - cbn [List.length] in Hlen. cbn [bindMap].
    destruct (In_in_range f i ltac:(lia)) as [t Ht].
    destruct (mapLookup (par_Name cp) paramsMap) as [param|].
    + rewrite Ht. cbn [mbind outcome_bind].
      destruct (handlerParamValue param t) as [v|err].
      * destruct (IH (S i) (args ++ [v]) ltac:(lia)) as (r & -> & Hr).
        exists r. split; [reflexivity|]. intros out Hout.
        rewrite (Hr out Hout), length_app. cbn. lia.
      * exists (Err err). split; [reflexivity|discriminate].
    + destruct (par_Optional cp).
      * rewrite Ht. cbn [mbind outcome_bind].
        destruct (IH (S i) (args ++ [ty_Zero t]) ltac:(lia)) as (r & -> & Hr).
        exists r. split; [reflexivity|]. intros out Hout.
        rewrite (Hr out Hout), length_app. cbn. lia.
      * eexists. split; [reflexivity|discriminate].
Qed.

Lemma buildArguments_returns (f : Func) (params : json)
  (configuredParams : list MethodParameter) :
  List.length (fn_In f) = List.length configuredParams ->
  validParams params = true -> params <> JNull ->
  exists r, buildArguments params (HFunc f) configuredParams = Returns r /\
            forall out, r = Ok out ->
              List.length out = List.length (fn_In f).
Proof.
  intros Hlen Hvalid Hnil. unfold buildArguments.
  destruct params as [| | | |l|m]; try discriminate Hvalid;
    [contradiction| |]; cbn [isNil mbind outcome_bind NumIn].
  - destruct (Nat.eqb_spec (List.length l) (List.length (fn_In f)))
      as [Hl|Hl]; cbn [negb].
    + destruct (bindList_returns f l 0 [] ltac:(cbn; lia)) as (r & -> & Hr).
      exists r. split; [reflexivity|]. intros out Hout.
      rewrite (Hr out Hout). cbn. lia.
    + eexists. split; [reflexivity|discriminate].
  - destruct (bindMap_returns f m configuredParams 0 [] ltac:(cbn; lia))
      as (r & -> & Hr).
    exists r. split; [reflexivity|]. intros out Hout.
    rewrite (Hr out Hout). cbn. lia.
Qed.

Lemma buildArguments_sane (f : Func) (req : request)
  (configuredParams : list MethodParameter) :
  List.length (fn_In f) = List.length configuredParams ->
  isSane req = None ->
  (req_Params req = JNull ->
   buildArguments (req_Params req) (HFunc f) configuredParams
   = Returns (Ok [])) /\
  (req_Params req <> JNull ->
   exists r,
     buildArguments (req_Params req) (HFunc f) configuredParams = Returns r /\
     forall args, r = Ok args ->
       List.length args = List.length (fn_In f)).
Proof.
  intros Hlen Hs. split.
  - intros ->. reflexivity.
  - intros Hgiven.
    exact (buildArguments_returns f (req_Params req) configuredParams
             Hlen (isSane_params req Hs) Hgiven).
Qed.

Lemma after_call_returns (call : outcome (any * option Error))
  (k : any * option Error -> outcome (result goError (option response))) :
  (forall tuple, k tuple <> Panics) ->
  (call ≫= k) = Panics <-> call = Panics.
Proof.
  intros Hk. destruct call as [tuple|]; cbn [mbind outcome_bind];
    [|tauto].
  split; [intros Hp; destruct (Hk tuple Hp)|discriminate].
Qed.

Lemma registered_arity (s : Server) (name : string) (m : Method) (f : Func) :
  registered s -> methods s !! name = Some m -> m_Handler m = HFunc f ->
  List.length (fn_In f) = List.length (m_Params m).
Proof.
  intros Hreg Hm Hf.
  destruct (registered_handler s Hreg _ m Hm) as (f' & Hf' & Hlen).
  rewrite Hf in Hf'. injection Hf' as <-. exact Hlen.
Qed.

Lemma handleRequest_panics_step (s : Server) (req : request) (m : Method)
  (f : Func) (r : result goError (list json)) :
  methods s !! req_Method req = Some m -> m_Handler m = HFunc f ->
  isSane req = None ->
  buildArguments (req_Params req) (HFunc f) (m_Params m) = Returns r ->
  (handleRequest s req = Panics <->
   exists args, r = Ok args /\
     (argsFit f args = false \/ fn_call f args = Panics)).
Proof.
  intros Hm Hf Hs Hb. unfold handleRequest.
  rewrite Hs, Hm, Hf, Hb. cbn [mbind outcome_bind].
  destruct r as [args|err];
    [|split; [discriminate|intros (args & Heq & _); discriminate Heq]].
  rewrite after_call_returns
    by (intros tuple; cbn [res_ID];
        destruct (req_ID req), (snd tuple); discriminate).
  unfold Call. destruct (argsFit f args) eqn:Hfits.
  - split.
    + intros Hp. exists args. split; [reflexivity|right; exact Hp].
    + intros (args' & [= <-] & [Hfit|Hp]); [congruence|exact Hp].
  - split; [|reflexivity].
    intros _. exists args. split; [reflexivity|left; exact Hfits].
Qed.

Lemma params_given_or_not (req : request) :
  req_Params req = JNull \/ req_Params req <> JNull.
Proof.
  destruct (req_Params req); [left; reflexivity|right; discriminate..].
Qed.

Lemma buildArguments_built (f : Func) (req : request)
  (configuredParams : list MethodParameter) :
  List.length (fn_In f) = List.length configuredParams ->
  isSane req = None ->
  exists r, buildArguments (req_Params req) (HFunc f) configuredParams
            = Returns r.
Proof.
  intros Hlen Hs.
  destruct (buildArguments_sane f req configuredParams Hlen Hs)
    as [Hnull Hgiven].
  destruct (params_given_or_not req) as [Hn|Hg].
  - eexists. exact (Hnull Hn).
  - destruct (Hgiven Hg) as (r & Hr & _). exists r. exact Hr.
Qed.

(** X18. In a server built by registrations the binding of arguments
    never panics: with params absent it yields no argument, and with
    params given, as an array or as an object, it fails with an error or
    yields exactly as many arguments as the handler has parameters.
    Serving a request panics exactly when the request is sane, its method
    is registered, its arguments bind, and either [reflect] refuses the
    number of arguments or the call of the handler panics.  For a handler
    that is not variadic and does not panic, that is the case of the sane
    request without params for a method that declares a parameter. *)
Theorem handleRequest_panics_iff (s : Server) (req : request)
  (Hreg : registered s) :
  (handleRequest s req = Panics <->
   isSane req = None /\
   exists m f args,
     methods s !! req_Method req = Some m /\ m_Handler m = HFunc f /\
     buildArguments (req_Params req) (HFunc f) (m_Params m)
     = Returns (Ok args) /\
     (argsFit f args = false \/ fn_call f args = Panics)) /\
  (forall m f,
     methods s !! req_Method req = Some m -> m_Handler m = HFunc f ->
     isSane req = None ->
     (req_Params req = JNull ->
      buildArguments (req_Params req) (HFunc f) (m_Params m)
      = Returns (Ok [])) /\
     (req_Params req <> JNull ->
      exists r,
        buildArguments (req_Params req) (HFunc f) (m_Params m) = Returns r /\
        forall args, r = Ok args ->
          List.length args = List.length (fn_In f))) /\
  (forall m f,
     methods s !! req_Method req = Some m -> m_Handler m = HFunc f ->
     fn_IsVariadic f = false ->
     (forall args, fn_call f args <> Panics) ->
     (handleRequest s req = Panics <->
      isSane req = None /\ req_Params req = JNull /\ m_Params m <> [])).
Proof.
  split; [|split].
  - split.
    + intros Hp.
      destruct (isSane req) eqn:Hs;
        [unfold handleRequest in Hp; rewrite Hs in Hp; discriminate|].
      split; [reflexivity|].
      destruct (methods s !! req_Method req) as [m|] eqn:Hm;
        [|unfold handleRequest in Hp; rewrite Hs, Hm in Hp; discriminate].
      destruct (registered_handler s Hreg _ m Hm) as (f & Hf & Hlen).
      destruct (buildArguments_built f req (m_Params m) Hlen Hs) as [r Hr].
      apply (handleRequest_panics_step s req m f r Hm Hf Hs Hr) in Hp
        as (args & -> & Hwhy).
      exists m, f, args. repeat split; assumption.
    + intros (Hs & m & f & args & Hm & Hf & Hb & Hwhy).
      apply (handleRequest_panics_step s req m f (Ok args) Hm Hf Hs Hb).
      exists args. split; [reflexivity|exact Hwhy].
  - intros m f Hm Hf Hs.
    exact (buildArguments_sane f req (m_Params m)
             (registered_arity s _ m f Hreg Hm Hf) Hs).
  - intros m f Hm Hf Hvar Hquiet.
    pose proof (registered_arity s _ m f Hreg Hm Hf) as Hlen.
    split.
    + intros Hp.
      destruct (isSane req) eqn:Hs;
        [unfold handleRequest in Hp; rewrite Hs in Hp; discriminate|].
      destruct (buildArguments_sane f req (m_Params m) Hlen Hs)
        as [Hnull Hgiven].
      destruct (buildArguments_built f req (m_Params m) Hlen Hs) as [r Hr].
      apply (handleRequest_panics_step s req m f r Hm Hf Hs Hr) in Hp
        as (args & -> & [Hfit|Hp]); [|destruct (Hquiet args Hp)].
      unfold argsFit in Hfit. rewrite Hvar in Hfit.
      apply Nat.eqb_neq in Hfit.
      destruct (params_given_or_not req) as [Hn|Hg].
      * split; [reflexivity|]. split; [exact Hn|].
        rewrite (Hnull Hn) in Hr. injection Hr as <-.
        intros Hnone. rewrite Hnone in Hlen. cbn in Hfit, Hlen. lia.
      * destruct (Hgiven Hg) as (r' & Hr' & Hcount).
        rewrite Hr in Hr'. injection Hr' as <-.
        specialize (Hcount args eq_refl). contradiction.
    + intros (Hs & Hn & Hne).
      destruct (buildArguments_sane f req (m_Params m) Hlen Hs)
        as [Hnull _].
      apply (handleRequest_panics_step s req m f (Ok []) Hm Hf Hs (Hnull Hn)).
      exists []. split; [reflexivity|]. left.
      unfold argsFit. rewrite Hvar. cbn [List.length].
      apply Nat.eqb_neq. rewrite Hlen.
      destruct (m_Params m); [contradiction|discriminate].
Qed.

Lemma bindMap_missing (f : Func) (paramsMap : list (string * json))
  (configuredParams : list MethodParameter) :
  forall (i : nat) (args : list json),
    (i + List.length configuredParams <= List.length (fn_In f))%nat ->
    (exists p, In p configuredParams /\ par_Optional p = false /\
               mapLookup (par_Name p) paramsMap = None) ->
    exists err,
      bindMap (HFunc f) paramsMap i configuredParams args = Returns (Err err).
Proof.
  induction configuredParams as [|cp rest IH];
    intros i args Hlen (p & Hin & Hreq & Hmiss); [destruct Hin|].
  cbn [List.length] in Hlen. cbn [bindMap].
  destruct (In_in_range f i ltac:(lia)) as [t Ht].
  assert (Hrest : forall args',
            p <> cp ->
            exists err, bindMap (HFunc f) paramsMap (S i) rest args'
                        = Returns (Err err)).
  { intros args' Hne. apply IH; [lia|]. exists p.
    destruct Hin as [->|Hin]; [contradiction|]. repeat split; assumption. }
  destruct (mapLookup (par_Name cp) paramsMap) as [param|] eqn:Hl.
  - rewrite Ht. cbn [mbind outcome_bind].
    destruct (handlerParamValue param t) as [v|err]; [|eexists; reflexivity].
    apply Hrest. intros ->. congruence.
  - destruct (par_Optional cp) eqn:Ho; [|eexists; reflexivity].
    rewrite Ht. cbn [mbind outcome_bind].
    apply Hrest. intros ->. congruence.
Qed.

(** X19. For a registered method, params given as an array whose length
    is not the number of declared parameters are answered with [-32602]
    before any argument is decoded, and params given as an object that
    lacks a declared parameter that is not optional are answered with
    [-32602]; both answers carry the request's id and the handler is not
    called. *)
Theorem invalid_params_response (s : Server) (req : request) (m : Method)
  (Hreg : registered s)
  (Hsane : isSane req = None)
  (Hm : methods s !! req_Method req = Some m) :
  (forall l, req_Params req = JArray l ->
     List.length l <> List.length (m_Params m) ->
     handleRequest s req
     = Returns (Ok (Some (errorResponse (req_ID req)
         (rpcErr (-32602) (JString "missing/unexpected params in list")))))) /\
  (forall pm, req_Params req = JObject pm ->
     (exists p, In p (m_Params m) /\ par_Optional p = false /\
                mapLookup (par_Name p) pm = None) ->
     exists msg,
       handleRequest s req
       = Returns (Ok (Some (errorResponse (req_ID req)
                              (rpcErr (-32602) (JString msg)))))).
Proof.
  destruct (registered_handler s Hreg _ m Hm) as (f & Hf & Hlen).
  split.
  - intros l Hp Hl. unfold handleRequest, buildArguments.
    rewrite Hsane, Hm, Hp, Hf. cbn [isNil mbind outcome_bind NumIn].
    destruct (Nat.eqb_spec (List.length l) (List.length (fn_In f)));
      [congruence|reflexivity].
  - intros pm Hp Hmissing. unfold handleRequest, buildArguments.
    rewrite Hsane, Hm, Hp, Hf. cbn [isNil mbind outcome_bind].
    destruct (bindMap_missing f pm (m_Params m) 0 [] ltac:(cbn; lia)
                Hmissing) as [err ->].
    exists (errorText err). reflexivity.
Qed.

Lemma mapLookup_absent (name : string) (m : list (string * json)) :
  ~ In name (map fst m) -> mapLookup name m = None.
Proof.
  induction m as [|[k v] m IH]; intros Hnot; [reflexivity|].
  cbn [mapLookup]. rewrite IH by (intros Hin; apply Hnot; right; exact Hin).
  destruct (String.eqb_spec k name) as [->|]; [|reflexivity].
  exfalso. apply Hnot. left. reflexivity.
Qed.

Lemma mapLookup_later (name : string) (kv : string * json)
  (m : list (string * json)) (v : json) :
  mapLookup name m = Some v -> mapLookup name (kv :: m) = Some v.
Proof. intros Hm. destruct kv. cbn [mapLookup]. rewrite Hm. reflexivity. Qed.

Lemma bindMap_as_list (h : handlerAny) (paramsMap : list (string * json))
  (configuredParams : list MethodParameter) (values : list json) :
  Forall2 (fun cp v => mapLookup (par_Name cp) paramsMap = Some v)
          configuredParams values ->
  forall (i : nat) (args : list json),
    bindMap h paramsMap i configuredParams args = bindList h i values args.
Proof.
  induction 1 as [|cp v cps vs Hl _ IH]; intros i args; [reflexivity|].
  cbn [bindMap bindList]. rewrite Hl.
  destruct (In_ h i) as [t|]; [|reflexivity]. cbn [mbind outcome_bind].
  destruct (handlerParamValue v t); [apply IH|reflexivity].
Qed.

Lemma zip_lookups (configuredParams : list MethodParameter) :
  NoDup (map par_Name configuredParams) ->
  forall values : list json,
    List.length values = List.length configuredParams ->
    Forall2 (fun cp v =>
               mapLookup (par_Name cp)
                         (zip (map par_Name configuredParams) values) = Some v)
            configuredParams values.
Proof.
  induction configuredParams as [|cp cps IH]; intros Hnd values Hlen.
  - destruct values; [constructor|discriminate].
  - destruct values as [|v vs]; [discriminate|].
    cbn [map] in Hnd. apply NoDup_cons in Hnd as [Hnot Hnd].
    cbn [map zip zip_with]. constructor.
    + cbn [mapLookup]. rewrite mapLookup_absent.
      * rewrite String.eqb_refl. reflexivity.
      * intros Hin. apply Hnot, list_elem_of_In.
        assert (Hfst : map fst (zip (map par_Name cps) vs)
                       = map par_Name cps).
        { apply fst_zip. rewrite length_map. cbn in Hlen. lia. }
        fold (zip (map par_Name cps) vs) in Hin.
        rewrite Hfst in Hin. exact Hin.
    + eapply Forall2_impl; [apply (IH Hnd vs); cbn in Hlen; lia|].
      intros cp' v' Hl. apply mapLookup_later. exact Hl.
Qed.

(** X20. For a method whose declared parameters have distinct names,
    params given by name, each declared parameter with its value, bind
    exactly as the same values given by position. *)
Theorem named_as_positional (h : handlerAny)
  (configuredParams : list MethodParameter) (values : list json)
  (Hdistinct : NoDup (map par_Name configuredParams))
  (Hlen : List.length values = List.length configuredParams)
  (Harity : NumIn h = Returns (List.length configuredParams)) :
  buildArguments (JObject (zip (map par_Name configuredParams) values))
                 h configuredParams
  = buildArguments (JArray values) h configuredParams.
Proof.
  unfold buildArguments. cbn [isNil mbind outcome_bind].
  rewrite Harity. cbn [mbind outcome_bind].
  rewrite Hlen, Nat.eqb_refl. cbn [negb].
  apply bindMap_as_list, zip_lookups; assumption.
Qed.

Lemma mapLookup_other (name k : string) (v : json)
  (m1 m2 : list (string * json)) :
  k <> name ->
  mapLookup name (m1 ++ (k, v) :: m2) = mapLookup name (m1 ++ m2).
Proof.
  intros Hne. induction m1 as [|[k1 v1] m1 IH].
  - cbn [app mapLookup].
    destruct (mapLookup name m2); [reflexivity|].
    destruct (String.eqb_spec k name); [contradiction|reflexivity].
  - cbn [app mapLookup]. rewrite IH. reflexivity.
Qed.

(** X21. Binding by name looks at the declared parameters only: a member
    of the params object whose name is not that of a declared parameter
    changes nothing, wherever it stands in the object. *)
Theorem unknown_members_ignored (h : handlerAny)
  (configuredParams : list MethodParameter)
  (m1 m2 : list (string * json)) (k : string) (v : json)
  (Hunknown : forall p, In p configuredParams -> par_Name p <> k) :
  buildArguments (JObject (m1 ++ (k, v) :: m2)) h configuredParams
  = buildArguments (JObject (m1 ++ m2)) h configuredParams.
Proof.
  unfold buildArguments. cbn [isNil mbind outcome_bind].
  generalize 0%nat at 1 2. generalize (@nil json).
  induction configuredParams as [|cp cps IH]; intros args i; [reflexivity|].
  cbn [bindMap].
  rewrite mapLookup_other
    by (intros Heq; exact (Hunknown cp (or_introl eq_refl) (eq_sym Heq))).
  assert (Hrest : forall args' i',
            bindMap h (m1 ++ (k, v) :: m2) i' cps args'
            = bindMap h (m1 ++ m2) i' cps args').
  { intros args' i'. apply IH. intros p Hin. apply Hunknown. right.
    exact Hin. }
  destruct (mapLookup (par_Name cp) (m1 ++ m2)) as [param|].
  - destruct (In_ h i) as [t|]; [|reflexivity]. cbn [mbind outcome_bind].
    destruct (handlerParamValue param t); [apply Hrest|reflexivity].
  - destruct (par_Optional cp); [|reflexivity].
    destruct (In_ h i) as [t|]; [|reflexivity]. cbn [mbind outcome_bind].
    apply Hrest.
Qed.

(** *** Batches *)

Lemma handleBatch_collect (s : Server) (batchReq : list json)
  (responses : list (option response)) :
  Forall2 (fun d r => handleElement s d = Returns r) batchReq responses ->
  Forall (fun r => Marshal r = None) (omap id responses) ->
  forall batchRes,
    handleBatch s batchReq batchRes
    = Returns (Ok (batchRes ++ omap id responses)).
Proof.
  induction 1 as [|d r ds rs Hd _ IH]; intros Hok batchRes.
  - cbn. rewrite app_nil_r. reflexivity.
  - cbn [handleBatch]. rewrite Hd. cbn [mbind outcome_bind].
    cbn [omap list_omap] in Hok |- *. destruct r as [r|]; cbn [id] in Hok |- *.
    + inversion Hok as [|? ? Hr Hrest]; subst. rewrite Hr.
      cbn [omap] in IH. rewrite (IH Hrest), <- app_assoc. reflexivity.
    + apply IH. exact Hok.
Qed.

Lemma handleBatch_fails (s : Server) (before : list json)
  (responses : list (option response)) (d : json) (r : response)
  (jsonErr : goError) (rest : list json) :
  Forall2 (fun d r => handleElement s d = Returns r) before responses ->
  Forall (fun r => Marshal r = None) (omap id responses) ->
  handleElement s d = Returns (Some r) -> Marshal r = Some jsonErr ->
  forall batchRes,
    handleBatch s (before ++ d :: rest) batchRes = Returns (Err jsonErr).
Proof.
  intros Hall Hok Hd Hr.
  induction Hall as [|d0 r0 ds rs Hd0 _ IH]; intros batchRes.
  - cbn [app handleBatch]. rewrite Hd. cbn [mbind outcome_bind].
    rewrite Hr. reflexivity.
  - cbn [app handleBatch]. rewrite Hd0. cbn [mbind outcome_bind].
    cbn [omap list_omap] in Hok. destruct r0 as [r0|]; cbn [id] in Hok.
    + inversion Hok as [|? ? Hr0 Hrest]; subst. rewrite Hr0.
      apply IH. exact Hrest.
    + apply IH. exact Hok.
Qed.

(** X22. An empty batch is answered with [-32600].  For a batch that is
    not empty and whose responses all encode, the output is the array of
    the responses of its elements in the order of the elements, the
    elements without a response left out; it has an entry for every
    element when every element has a response, and no bytes are returned
    when none has.  At the first response that does not encode the call
    returns the encoder's error and nothing else, the elements after it
    not being served; a single request whose response does not encode
    returns that error too. *)
Theorem batch_responses (s : Server) :
  HandleReader s (Document (JArray []))
  = Returns (Single (errorResponse JNull
                       (rpcErr (-32600) (JString "empty batch")))) /\
  (forall (batchReq : list json) (responses : list (option response)),
     batchReq <> [] ->
     Forall2 (fun d r => handleElement s d = Returns r) batchReq responses ->
     Forall (fun r => Marshal r = None) (omap id responses) ->
     HandleReader s (Document (JArray batchReq))
     = Returns (match omap id responses with
                | [] => NoBytes
                | out => Batch out
                end) /\
     (Forall (fun r => r <> None) responses ->
      List.length (omap id responses) = List.length batchReq) /\
     (Forall (fun r => r = None) responses -> omap id responses = [])) /\
  (forall (before : list json) (responses : list (option response))
          (d : json) (r : response) (jsonErr : goError) (rest : list json),
     Forall2 (fun d r => handleElement s d = Returns r) before responses ->
     Forall (fun r => Marshal r = None) (omap id responses) ->
     handleElement s d = Returns (Some r) -> Marshal r = Some jsonErr ->
     HandleReader s (Document (JArray (before ++ d :: rest)))
     = Returns (Failed jsonErr)) /\
  (forall (d : json) (req : request) (r : response) (jsonErr : goError),
     decodeRequest d = Ok req ->
     handleRequest s req = Returns (Ok (Some r)) ->
     Marshal r = Some jsonErr ->
     HandleReader s (Document d) = Returns (Failed jsonErr)).
Proof.
  split; [reflexivity|]. split; [|split].
  - intros batchReq responses Hne Hall Hok. split; [|split].
    + unfold HandleReader. cbn [isBatch negb decodeBatch].
      destruct batchReq as [|d ds]; [contradiction|].
      rewrite (handleBatch_collect s (d :: ds) responses Hall Hok []).
      cbn [app mbind outcome_bind].
      destruct (omap id responses); reflexivity.
    + intros Hsome. clear Hne Hok.
      induction Hall as [|d r ds rs _ _ IH]; [reflexivity|].
      inversion Hsome as [|? ? Hr Hrs]; subst.
      destruct r as [r|]; [|contradiction].
      cbn [omap list_omap id List.length]. cbn [omap] in IH.
      rewrite (IH Hrs). reflexivity.
    + intros Hnone. clear Hne Hall Hok.
      induction Hnone as [|r rs -> _ IH]; [reflexivity|].
      cbn [omap list_omap id]. exact IH.
  - intros before responses d r jsonErr rest Hall Hok Hd Hr.
    unfold HandleReader. cbn [isBatch negb decodeBatch].
    pose proof (handleBatch_fails s before responses d r jsonErr rest
                  Hall Hok Hd Hr []) as Hb.
    destruct (before ++ d :: rest) eqn:Hlist;
      [destruct before; discriminate Hlist|].
    rewrite Hb. reflexivity.
  - intros d req r jsonErr Hd Hh Hr.
    rewrite (single_as_element s d req Hd).
    unfold handleElement. rewrite Hd, Hh. cbn [mbind outcome_bind asSingle].
    unfold marshalled. rewrite Hr. reflexivity.
Qed.

End MoreRpcProperties.

(** *** Instances on the sample server *)

Import Jsonrpc RpcSamples.

Lemma isSane_accepts_witness :
  isSane {| req_Version := "2.0"; req_Method := "starknet_chainId";
            req_Params := JArray []; req_ID := JNumber "7" |} = None /\
  isSane {| req_Version := "2.0"; req_Method := "starknet_chainId";
            req_Params := JNull; req_ID := JNumber "1.5" |}
  = Some ErrInvalidID.
Proof.
  split.
  - apply (isSane_accepts
             {| req_Version := "2.0"; req_Method := "starknet_chainId";
                req_Params := JArray []; req_ID := JNumber "7" |}).
    repeat split; discriminate.
  - apply (isSane_accepts
             {| req_Version := "2.0"; req_Method := "starknet_chainId";
                req_Params := JNull; req_ID := JNumber "1.5" |}).
    repeat split; discriminate.
Defined.

Lemma invalid_id_handling_witness :
  HandleReader sampleServer
    (Document (call "starknet_chainId" [("id", JNumber "1.5")]))
  = Returns (Single (errorResponse JNull
      (rpcErr (-32600) (JString "id should be a string or an integer")))) /\
  HandleReader sampleServer
    (Document (JObject [("jsonrpc", JString "1.0");
                        ("method", JString "starknet_chainId");
                        ("id", JNumber "1.5")]))
  = Returns (Single (errorResponse (JNumber "1.5")
      (rpcErr (-32600) (JString "unsupported RPC request version")))).
Proof.
  split.
  - destruct (invalid_id_handling sampleServer
                (call "starknet_chainId" [("id", JNumber "1.5")])
                {| req_Version := "2.0"; req_Method := "starknet_chainId";
                   req_Params := JNull; req_ID := JNumber "1.5" |}
                eq_refl eq_refl) as [Honly _].
    apply Honly; [reflexivity|discriminate|reflexivity].
  - destruct (invalid_id_handling sampleServer
                (JObject [("jsonrpc", JString "1.0");
                          ("method", JString "starknet_chainId");
                          ("id", JNumber "1.5")])
                {| req_Version := "1.0"; req_Method := "starknet_chainId";
                   req_Params := JNull; req_ID := JNumber "1.5" |}
                eq_refl eq_refl) as [_ Hversion].
    apply Hversion. discriminate.
Defined.

Lemma unknown_method_response_witness :
  HandleReader sampleServer
    (Document (call "starknet_unknown" [("id", JString "x")]))
  = Returns (Single (errorResponse (JString "x") (rpcErr (-32601) JNull))).
Proof.
  destruct (unknown_method_response sampleServer
              (call "starknet_unknown" [("id", JString "x")])
              {| req_Version := "2.0"; req_Method := "starknet_unknown";
                 req_Params := JNull; req_ID := JString "x" |}
              eq_refl eq_refl eq_refl) as [Hsingle _].
  exact Hsingle.
Defined.

Lemma response_shape_witness :
  let r := {| res_Version := "2.0";
              res_Result := JString "0x534e5f4d41494e";
              res_Error := None; res_ID := JNumber "1" |} in
  res_Version r = "2.0" /\ res_ID r = JNumber "1".
Proof.
  destruct (response_shape sampleServer
              {| req_Version := "2.0"; req_Method := "starknet_chainId";
                 req_Params := JNull; req_ID := JNumber "1" |}
              {| res_Version := "2.0";
                 res_Result := JString "0x534e5f4d41494e";
                 res_Error := None; res_ID := JNumber "1" |} eq_refl)
    as (Hv & Hi & _).
  split; [exact Hv|exact Hi].
Defined.

Lemma RegisterMethod_spec_witness :
  validHandler chainIdMethod /\
  forall s', RegisterMethod NewServer chainIdMethod = Ok s' ->
    methods s' !! "starknet_chainId" = Some chainIdMethod.
Proof.
  destruct (RegisterMethod_spec NewServer chainIdMethod) as [[Hvalid _] Hlook].
  split.
  - apply Hvalid. eexists. reflexivity.
  - intros s' Hs. exact (proj1 (Hlook s' Hs)).
Defined.

Lemma registered_methods_valid_witness :
  m_Name getTransactionByHashMethod = "starknet_getTransactionByHash" /\
  validHandler getTransactionByHashMethod.
Proof.
  exact (registered_methods_valid sampleServer sampleServer_registered
           "starknet_getTransactionByHash" getTransactionByHashMethod
           eq_refl).
Defined.

Lemma isBatchBytes_spec_witness :
  isBatchBytes (String.list_ascii_of_string "  [1]") = true.
Proof.
  apply isBatchBytes_spec.
  exists (String.list_ascii_of_string "  "),
         (String.list_ascii_of_string "1]").
  split; [reflexivity|repeat constructor].
Defined.

Lemma handleRequest_panics_iff_witness :
  handleRequest sampleServer
    {| req_Version := "2.0"; req_Method := "starknet_getTransactionByHash";
       req_Params := JNull; req_ID := JNull |} = Panics /\
  handleRequest sampleServer
    {| req_Version := "2.0"; req_Method := "starknet_getTransactionByHash";
       req_Params := JArray []; req_ID := JNull |} <> Panics /\
  handleRequest otherServer
    {| req_Version := "2.0"; req_Method := "sample_join";
       req_Params := JArray [JArray [JString "a"]]; req_ID := JNull |}
  = Panics.
Proof.
  assert (Hquiet : forall f, m_Handler getTransactionByHashMethod = HFunc f ->
                     forall args, fn_call f args <> Panics).
  { intros f [= <-] args. cbn. destruct args as [|[] []]; discriminate. }
  split; [|split].
  - destruct (handleRequest_panics_iff sampleServer
                {| req_Version := "2.0";
                   req_Method := "starknet_getTransactionByHash";
                   req_Params := JNull; req_ID := JNull |}
                sampleServer_registered) as (_ & _ & Hplain).
    apply (Hplain getTransactionByHashMethod _ eq_refl eq_refl eq_refl
             (Hquiet _ eq_refl)).
    split; [reflexivity|]. split; [reflexivity|discriminate].
  - intros Hp.
    destruct (handleRequest_panics_iff sampleServer
                {| req_Version := "2.0";
                   req_Method := "starknet_getTransactionByHash";
                   req_Params := JArray []; req_ID := JNull |}
                sampleServer_registered) as (_ & _ & Hplain).
    apply (Hplain getTransactionByHashMethod _ eq_refl eq_refl eq_refl
             (Hquiet _ eq_refl)) in Hp as (_ & Hnull & _).
    discriminate Hnull.
  - destruct (handleRequest_panics_iff otherServer
                {| req_Version := "2.0"; req_Method := "sample_join";
                   req_Params := JArray [JArray [JString "a"]];
                   req_ID := JNull |}
                otherServer_registered) as (Hiff & _ & _).
    apply Hiff. split; [reflexivity|].
    exists joinMethod. eexists. exists [JArray [JString "a"]].
    split; [reflexivity|]. split; [reflexivity|].
    split; [reflexivity|left; reflexivity].
Defined.

Lemma invalid_params_response_witness :
  handleRequest sampleServer
    {| req_Version := "2.0"; req_Method := "starknet_getTransactionByHash";
       req_Params := JArray [JString "0xabc"; JString "0xdef"];
       req_ID := JNumber "3" |}
  = Returns (Ok (Some (errorResponse (JNumber "3")
      (rpcErr (-32602) (JString "missing/unexpected params in list"))))) /\
  exists msg,
    handleRequest sampleServer
      {| req_Version := "2.0"; req_Method := "starknet_getTransactionByHash";
         req_Params := JObject [("hash", JString "0xabc")];
         req_ID := JNumber "3" |}
    = Returns (Ok (Some (errorResponse (JNumber "3")
                           (rpcErr (-32602) (JString msg))))).
Proof.
  split.
  - destruct (invalid_params_response sampleServer
                {| req_Version := "2.0";
                   req_Method := "starknet_getTransactionByHash";
                   req_Params := JArray [JString "0xabc"; JString "0xdef"];
                   req_ID := JNumber "3" |}
                getTransactionByHashMethod sampleServer_registered
                eq_refl eq_refl) as [Hlist _].
    apply (Hlist _ eq_refl). discriminate.
  - destruct (invalid_params_response sampleServer
                {| req_Version := "2.0";
                   req_Method := "starknet_getTransactionByHash";
                   req_Params := JObject [("hash", JString "0xabc")];
                   req_ID := JNumber "3" |}
                getTransactionByHashMethod sampleServer_registered
                eq_refl eq_refl) as [_ Hmap].
    apply (Hmap _ eq_refl).
    exists {| par_Name := "transaction_hash"; par_Optional := false |}.
    split; [left; reflexivity|split; reflexivity].
Defined.

Lemma named_as_positional_witness :
  buildArguments (JObject [("transaction_hash", JString "0xabc")])
    (m_Handler getTransactionByHashMethod)
    (m_Params getTransactionByHashMethod)
  = Returns (Ok [JString "0xabc"]).
Proof.
  assert (Hnd : NoDup (map par_Name (m_Params getTransactionByHashMethod)))
    by (repeat constructor; intros Hin; inversion Hin).
  etransitivity;
    [exact (named_as_positional (m_Handler getTransactionByHashMethod)
              (m_Params getTransactionByHashMethod) [JString "0xabc"]
              Hnd eq_refl eq_refl)
    |reflexivity].
Defined.

Lemma unknown_members_ignored_witness :
  buildArguments
    (JObject [("extra", JBool true); ("transaction_hash", JString "0xabc")])
    (m_Handler getTransactionByHashMethod)
    (m_Params getTransactionByHashMethod)
  = Returns (Ok [JString "0xabc"]).
Proof.
  assert (Hunknown : forall p,
            In p (m_Params getTransactionByHashMethod) ->
            par_Name p <> "extra")
    by (intros p [<-|[]]; discriminate).
  etransitivity;
    [exact (unknown_members_ignored (m_Handler getTransactionByHashMethod)
              (m_Params getTransactionByHashMethod) []
              [("transaction_hash", JString "0xabc")] "extra" (JBool true)
              Hunknown)
    |reflexivity].
Defined.

Lemma batch_responses_witness :
  HandleReader sampleServer
    (Document (JArray [call "starknet_chainId" [("id", JNumber "1")];
                       call "starknet_chainId" [];
                       call "starknet_unknown" [("id", JNumber "2")]]))
  = Returns (Batch
      [{| res_Version := "2.0"; res_Result := JString "0x534e5f4d41494e";
          res_Error := None; res_ID := JNumber "1" |};
       errorResponse (JNumber "2") (rpcErr (-32601) JNull)]) /\
  HandleReader otherServer
    (Document (JArray [call "starknet_chainId" [("id", JNumber "1")];
                       call "sample_channel" [("id", JNumber "2")];
                       call "starknet_chainId" [("id", JNumber "3")]]))
  = Returns (Failed (jsonError "json: unsupported type: chan int")).
Proof.
  split.
  - destruct (batch_responses sampleServer) as (_ & Hbatch & _).
    assert (Hne : [call "starknet_chainId" [("id", JNumber "1")];
                   call "starknet_chainId" [];
                   call "starknet_unknown" [("id", JNumber "2")]] <> [])
      by discriminate.
    destruct (Hbatch _
                [Some {| res_Version := "2.0";
                         res_Result := JString "0x534e5f4d41494e";
                         res_Error := None; res_ID := JNumber "1" |};
                 None;
                 Some (errorResponse (JNumber "2") (rpcErr (-32601) JNull))]
                Hne) as [Hout _].
    + repeat constructor.
    + repeat constructor.
    + exact Hout.
  - destruct (batch_responses otherServer) as (_ & _ & Hfail & _).
    apply (Hfail [call "starknet_chainId" [("id", JNumber "1")]]
             [Some {| res_Version := "2.0";
                      res_Result := JString "0x534e5f4d41494e";
                      res_Error := None; res_ID := JNumber "1" |}]
             (call "sample_channel" [("id", JNumber "2")])
             {| res_Version := "2.0";
                res_Result := Unencodable "json: unsupported type: chan int";
                res_Error := None; res_ID := JNumber "2" |}).
    + repeat constructor.
    + repeat constructor.
    + reflexivity.
    + reflexivity.
Defined.
